(** * geco-i2b2-data-source: the i2b2 message envelope and the operation dispatcher

    A shallow embedding of
      - [pkg/i2b2api/models/common.go]: the request/response envelope,
        [NewRequest], [SetConnectionInfo], [CheckStatus];
      - the [datasource] package: [NewI2b2DataSource], [Query], [logError].

    Go strings are byte strings and are modelled by [string]; [int64] and
    [time.Duration] by [Z]; a nil-able value (error, slice, pointer,
    interface) by [option], with [None] for nil. Code that logs, reads the
    clock or calls a handler threads an explicit state. *)

From Stdlib Require Import ZArith String Ascii.
From Stdlib Require Import Decimal DecimalString DecimalPos DecimalZ.
From stdpp Require Import base strings gmap.

Local Open Scope string_scope.
Local Open Scope Z_scope.

(** ** Go standard library *)

Module strconv.

(** [strconv.FormatInt(i, 10)]: the decimal digits of [i], most
    significant first, with a leading minus sign when [i] is negative. *)
Definition FormatInt10 (i : Z) : string :=
  NilZero.string_of_int (Z.to_int i).

(** The inverse reading, [strconv.ParseInt(s, 10, 64)] without the range
    check; used to state that [FormatInt10] is the decimal rendering. *)
Definition ParseInt10 (s : string) : option Z :=
  option_map Z.of_int (NilZero.int_of_string s).

End strconv.

Module errors.

(** The values of Go's [error] interface that occur here: a plain message
    ([errors.New], and [fmt.Errorf] whose format has no [%w]) or a message
    around another error ([fmt.Errorf] with [%w]). A nil error is [None]
    of [option error]. *)
Inductive error : Type :=
| errorString (s : string)
| wrapError (msg : string) (err : error).

(** [errors.New] *)
Definition New (text : string) : error := errorString text.

(** The method [Error()]. *)
Definition Error (e : error) : string :=
  match e with
  | errorString s => s
  | wrapError msg _ => msg
  end.

(** [errors.Unwrap] *)
Definition Unwrap (e : error) : option error :=
  match e with
  | errorString _ => None
  | wrapError _ err => Some err
  end.

(** [err == target] on error values. Go compares the identity of the
    values; two values that differ here differ there. *)
Fixpoint eqb (e1 e2 : error) : bool :=
  match e1, e2 with
  | errorString s1, errorString s2 => String.eqb s1 s2
  | wrapError m1 i1, wrapError m2 i2 => String.eqb m1 m2 && eqb i1 i2
  | _, _ => false
  end.

(** [errors.Is]: whether [target] is [err] or an error that [err] wraps,
    at any depth. *)
Fixpoint Is (err target : error) : bool :=
  eqb err target
  || match err with
     | errorString _ => false
     | wrapError _ inner => Is inner target
     end.

End errors.

Module fmt.

(** [fmt.Errorf("%v", msg)] *)
Definition Errorf_v (msg : string) : errors.error :=
  errors.New msg.

(** [fmt.Errorf("%v: %v", msg, cause)] for a non-nil [cause]: the verb is
    [%v], so the result is a plain message that embeds [cause.Error()]. *)
Definition Errorf_v_v (msg : string) (cause : errors.error) : errors.error :=
  errors.New (msg +:+ ": " +:+ errors.Error cause).

End fmt.

Module time.

(** [time.Duration] is an [int64] count of nanoseconds. *)
Definition Duration : Type := Z.

Definition Nanosecond : Duration := 1.
Definition Microsecond : Duration := 1000 * Nanosecond.
Definition Millisecond : Duration := 1000 * Microsecond.
Definition Second : Duration := 1000 * Millisecond.
Definition Minute : Duration := 60 * Second.
Definition Hour : Duration := 60 * Minute.

(** [func (d Duration) Milliseconds() int64 { return int64(d) / 1e6 }];
    Go's integer division truncates toward zero, and a quotient by 1e6
    cannot leave the [int64] range. *)
Definition Milliseconds (d : Duration) : Z := Z.quot d 1000000.

(** What the envelope needs of [time.Time]: [t.Format(time.RFC3339)] and
    [t.Unix()]. *)
Class TimeOps := {
  Time : Type;
  FormatRFC3339 : Time -> string;
  Unix : Time -> Z;
}.

(** The wall clock: the readings that successive calls of [time.Now()]
    return, and how many have been taken so far. *)
Record Clock `{TimeOps} := {
  reading : nat -> Time;
  ticks : nat;
}.

(** [time.Now()] *)
Definition Now `{TimeOps} (c : Clock) : Time * Clock :=
  (reading c (ticks c), {| reading := reading c; ticks := S (ticks c) |}).

End time.

Module xml.

(** [xml.Name] *)
Record Name := { Space : string; Local : string }.

Definition zero : Name := {| Space := ""; Local := "" |}.

End xml.

(** ** Package [models] (pkg/i2b2api/models/common.go) *)

Module models.

(** [type MessageBody interface{}]: nil, or a value together with its
    dynamic type. *)
Definition MessageBody : Type := option { T : Type & T }.

(** Modelled from the spec: the declaration of [ConnectionInfo] is in a
    file of the package that is not part of the sources at hand. Its
    fields are those of the Connection Info record (endpoint URL, security
    domain, username, password, project identifier, result wait-time),
    under the names [SetConnectionInfo] and the data source constructor
    use. *)
Module ConnectionInfo.
Record t := {
  HiveURL : string;
  Domain : string;
  Username : string;
  Password : string;
  Project : string;
  WaitTime : time.Duration;
}.
End ConnectionInfo.

(** [MessageHeader] is an i2b2 XML header embedded in a request or
    response. *)
Module MessageHeader.
Record t := {
  XMLName : xml.Name;
  I2b2VersionCompatible : string;
  Hl7VersionCompatible : string;
  SendingApplicationApplicationName : string;
  SendingApplicationApplicationVersion : string;
  SendingFacilityFacilityName : string;
  ReceivingApplicationApplicationName : string;
  ReceivingApplicationApplicationVersion : string;
  ReceivingFacilityFacilityName : string;
  DatetimeOfMessage : string;
  SecurityDomain : string;
  SecurityUsername : string;
  SecurityPassword : string;
  MessageTypeMessageCode : string;
  MessageTypeEventType : string;
  MessageTypeMessageStructure : string;
  MessageControlIDSessionID : string;
  MessageControlIDMessageNum : string;
  MessageControlIDInstanceNum : string;
  ProcessingIDProcessingID : string;
  ProcessingIDProcessingMode : string;
  AcceptAcknowledgementType : string;
  ApplicationAcknowledgementType : string;
  CountryCode : string;
  ProjectID : string;
}.

(** [h.SecurityDomain = v] *)
Definition set_SecurityDomain (v : string) (h : t) : t :=
  {|
    XMLName := XMLName h;
    I2b2VersionCompatible := I2b2VersionCompatible h;
    Hl7VersionCompatible := Hl7VersionCompatible h;
    SendingApplicationApplicationName := SendingApplicationApplicationName h;
    SendingApplicationApplicationVersion := SendingApplicationApplicationVersion h;
    SendingFacilityFacilityName := SendingFacilityFacilityName h;
    ReceivingApplicationApplicationName := ReceivingApplicationApplicationName h;
    ReceivingApplicationApplicationVersion := ReceivingApplicationApplicationVersion h;
    ReceivingFacilityFacilityName := ReceivingFacilityFacilityName h;
    DatetimeOfMessage := DatetimeOfMessage h;
    SecurityDomain := v;
    SecurityUsername := SecurityUsername h;
    SecurityPassword := SecurityPassword h;
    MessageTypeMessageCode := MessageTypeMessageCode h;
    MessageTypeEventType := MessageTypeEventType h;
    MessageTypeMessageStructure := MessageTypeMessageStructure h;
    MessageControlIDSessionID := MessageControlIDSessionID h;
    MessageControlIDMessageNum := MessageControlIDMessageNum h;
    MessageControlIDInstanceNum := MessageControlIDInstanceNum h;
    ProcessingIDProcessingID := ProcessingIDProcessingID h;
    ProcessingIDProcessingMode := ProcessingIDProcessingMode h;
    AcceptAcknowledgementType := AcceptAcknowledgementType h;
    ApplicationAcknowledgementType := ApplicationAcknowledgementType h;
    CountryCode := CountryCode h;
    ProjectID := ProjectID h;
  |}.

(** [h.SecurityUsername = v] *)
Definition set_SecurityUsername (v : string) (h : t) : t :=
  {|
    XMLName := XMLName h;
    I2b2VersionCompatible := I2b2VersionCompatible h;
    Hl7VersionCompatible := Hl7VersionCompatible h;
    SendingApplicationApplicationName := SendingApplicationApplicationName h;
    SendingApplicationApplicationVersion := SendingApplicationApplicationVersion h;
    SendingFacilityFacilityName := SendingFacilityFacilityName h;
    ReceivingApplicationApplicationName := ReceivingApplicationApplicationName h;
    ReceivingApplicationApplicationVersion := ReceivingApplicationApplicationVersion h;
    ReceivingFacilityFacilityName := ReceivingFacilityFacilityName h;
    DatetimeOfMessage := DatetimeOfMessage h;
    SecurityDomain := SecurityDomain h;
    SecurityUsername := v;
    SecurityPassword := SecurityPassword h;
    MessageTypeMessageCode := MessageTypeMessageCode h;
    MessageTypeEventType := MessageTypeEventType h;
    MessageTypeMessageStructure := MessageTypeMessageStructure h;
    MessageControlIDSessionID := MessageControlIDSessionID h;
    MessageControlIDMessageNum := MessageControlIDMessageNum h;
    MessageControlIDInstanceNum := MessageControlIDInstanceNum h;
    ProcessingIDProcessingID := ProcessingIDProcessingID h;
    ProcessingIDProcessingMode := ProcessingIDProcessingMode h;
    AcceptAcknowledgementType := AcceptAcknowledgementType h;
    ApplicationAcknowledgementType := ApplicationAcknowledgementType h;
    CountryCode := CountryCode h;
    ProjectID := ProjectID h;
  |}.

(** [h.SecurityPassword = v] *)
Definition set_SecurityPassword (v : string) (h : t) : t :=
  {|
    XMLName := XMLName h;
    I2b2VersionCompatible := I2b2VersionCompatible h;
    Hl7VersionCompatible := Hl7VersionCompatible h;
    SendingApplicationApplicationName := SendingApplicationApplicationName h;
    SendingApplicationApplicationVersion := SendingApplicationApplicationVersion h;
    SendingFacilityFacilityName := SendingFacilityFacilityName h;
    ReceivingApplicationApplicationName := ReceivingApplicationApplicationName h;
    ReceivingApplicationApplicationVersion := ReceivingApplicationApplicationVersion h;
    ReceivingFacilityFacilityName := ReceivingFacilityFacilityName h;
    DatetimeOfMessage := DatetimeOfMessage h;
    SecurityDomain := SecurityDomain h;
    SecurityUsername := SecurityUsername h;
    SecurityPassword := v;
    MessageTypeMessageCode := MessageTypeMessageCode h;
    MessageTypeEventType := MessageTypeEventType h;
    MessageTypeMessageStructure := MessageTypeMessageStructure h;
    MessageControlIDSessionID := MessageControlIDSessionID h;
    MessageControlIDMessageNum := MessageControlIDMessageNum h;
    MessageControlIDInstanceNum := MessageControlIDInstanceNum h;
    ProcessingIDProcessingID := ProcessingIDProcessingID h;
    ProcessingIDProcessingMode := ProcessingIDProcessingMode h;
    AcceptAcknowledgementType := AcceptAcknowledgementType h;
    ApplicationAcknowledgementType := ApplicationAcknowledgementType h;
    CountryCode := CountryCode h;
    ProjectID := ProjectID h;
  |}.

(** [h.ProjectID = v] *)
Definition set_ProjectID (v : string) (h : t) : t :=
  {|
    XMLName := XMLName h;
    I2b2VersionCompatible := I2b2VersionCompatible h;
    Hl7VersionCompatible := Hl7VersionCompatible h;
    SendingApplicationApplicationName := SendingApplicationApplicationName h;
    SendingApplicationApplicationVersion := SendingApplicationApplicationVersion h;
    SendingFacilityFacilityName := SendingFacilityFacilityName h;
    ReceivingApplicationApplicationName := ReceivingApplicationApplicationName h;
    ReceivingApplicationApplicationVersion := ReceivingApplicationApplicationVersion h;
    ReceivingFacilityFacilityName := ReceivingFacilityFacilityName h;
    DatetimeOfMessage := DatetimeOfMessage h;
    SecurityDomain := SecurityDomain h;
    SecurityUsername := SecurityUsername h;
    SecurityPassword := SecurityPassword h;
    MessageTypeMessageCode := MessageTypeMessageCode h;
    MessageTypeEventType := MessageTypeEventType h;
    MessageTypeMessageStructure := MessageTypeMessageStructure h;
    MessageControlIDSessionID := MessageControlIDSessionID h;
    MessageControlIDMessageNum := MessageControlIDMessageNum h;
    MessageControlIDInstanceNum := MessageControlIDInstanceNum h;
    ProcessingIDProcessingID := ProcessingIDProcessingID h;
    ProcessingIDProcessingMode := ProcessingIDProcessingMode h;
    AcceptAcknowledgementType := AcceptAcknowledgementType h;
    ApplicationAcknowledgementType := ApplicationAcknowledgementType h;
    CountryCode := CountryCode h;
    ProjectID := v;
  |}.
End MessageHeader.

(** [RequestHeader] is an i2b2 XML header embedded in a request. *)
Module RequestHeader.
Record t := {
  XMLName : xml.Name;
  ResultWaittimeMs : string;
}.

(** [h.ResultWaittimeMs = v] *)
Definition set_ResultWaittimeMs (v : string) (h : t) : t :=
  {| XMLName := XMLName h; ResultWaittimeMs := v |}.
End RequestHeader.

(** [ResponseHeader] is an i2b2 XML header embedded in a response; its
    anonymous struct fields are named after the field that holds them. *)
Module ResponseHeader.
Module Info.
Record t := { Text : string; URL : string }.
End Info.
Module Status.
(** [Type_] is the field [Type]. *)
Record t := { Text : string; Type_ : string }.
End Status.
Module PollingURL.
Record t := { Text : string; IntervalMs : string }.
End PollingURL.
Module Condition.
Record t := { Text : string; Type_ : string; CodingSystem : string }.
End Condition.
Module Conditions.
Record t := { Condition : list Condition.t }.
End Conditions.
Module ResultStatus.
Record t := {
  Status : Status.t;
  PollingURL : PollingURL.t;
  Conditions : Conditions.t;
}.
End ResultStatus.

Record t := {
  XMLName : xml.Name;
  Info : Info.t;
  ResultStatus : ResultStatus.t;
}.
End ResponseHeader.

(** [Request] is an i2b2 XML request. *)
Module Request.
Record t := {
  XMLName : xml.Name;
  XMLNSMSG : string;
  XMLNSPDO : string;
  XMLNSONT : string;
  XMLNSCRCPDO : string;
  XMLNSCRCPSM : string;
  MessageHeader : MessageHeader.t;
  RequestHeader : RequestHeader.t;
  MessageBody : models.MessageBody;
}.

(** [req.MessageHeader = h] *)
Definition set_MessageHeader (h : MessageHeader.t) (req : t) : t :=
  {|
    XMLName := XMLName req;
    XMLNSMSG := XMLNSMSG req;
    XMLNSPDO := XMLNSPDO req;
    XMLNSONT := XMLNSONT req;
    XMLNSCRCPDO := XMLNSCRCPDO req;
    XMLNSCRCPSM := XMLNSCRCPSM req;
    MessageHeader := h;
    RequestHeader := RequestHeader req;
    MessageBody := MessageBody req;
  |}.

(** [req.RequestHeader = h] *)
Definition set_RequestHeader (h : RequestHeader.t) (req : t) : t :=
  {|
    XMLName := XMLName req;
    XMLNSMSG := XMLNSMSG req;
    XMLNSPDO := XMLNSPDO req;
    XMLNSONT := XMLNSONT req;
    XMLNSCRCPDO := XMLNSCRCPDO req;
    XMLNSCRCPSM := XMLNSCRCPSM req;
    MessageHeader := MessageHeader req;
    RequestHeader := h;
    MessageBody := MessageBody req;
  |}.

(** [req.MessageBody = b] *)
Definition set_MessageBody (b : models.MessageBody) (req : t) : t :=
  {|
    XMLName := XMLName req;
    XMLNSMSG := XMLNSMSG req;
    XMLNSPDO := XMLNSPDO req;
    XMLNSONT := XMLNSONT req;
    XMLNSCRCPDO := XMLNSCRCPDO req;
    XMLNSCRCPSM := XMLNSCRCPSM req;
    MessageHeader := MessageHeader req;
    RequestHeader := RequestHeader req;
    MessageBody := b;
  |}.
End Request.

(** [Response] is an i2b2 XML response. *)
Module Response.
Record t := {
  XMLName : xml.Name;
  MessageHeader : MessageHeader.t;
  RequestHeader : RequestHeader.t;
  ResponseHeader : ResponseHeader.t;
  MessageBody : models.MessageBody;
}.
End Response.

(** [NewRequest] creates a new ready-to-use i2b2 request, with a nil
    message body. The clock is read once, into [now]. *)
Definition NewRequest `{time.TimeOps} (clock : time.Clock)
  : Request.t * time.Clock :=
  let '(now, clock) := time.Now clock in
  ({|
     Request.XMLName := xml.zero;
     Request.XMLNSMSG := "http://www.i2b2.org/xsd/hive/msg/1.1/";
     Request.XMLNSONT := "http://www.i2b2.org/xsd/cell/ont/1.1/";
     Request.XMLNSPDO := "http://www.i2b2.org/xsd/hive/pdo/1.1/";
     Request.XMLNSCRCPDO := "http://www.i2b2.org/xsd/cell/crc/pdo/1.1/";
     Request.XMLNSCRCPSM := "http://www.i2b2.org/xsd/cell/crc/psm/1.1/";
     Request.MessageHeader := {|
       MessageHeader.XMLName := xml.zero;
       MessageHeader.I2b2VersionCompatible := "0.3";
       MessageHeader.Hl7VersionCompatible := "2.4";
       MessageHeader.SendingApplicationApplicationName := "GeCo i2b2 Data Source";
       MessageHeader.SendingApplicationApplicationVersion := "0.2";
       MessageHeader.SendingFacilityFacilityName := "GeCo";
       MessageHeader.ReceivingApplicationApplicationName := "i2b2 cell";
       MessageHeader.ReceivingApplicationApplicationVersion := "1.7";
       MessageHeader.ReceivingFacilityFacilityName := "i2b2 hive";
       MessageHeader.DatetimeOfMessage := time.FormatRFC3339 now;
       MessageHeader.SecurityDomain := "NOT_SET";
       MessageHeader.SecurityUsername := "NOT_SET";
       MessageHeader.SecurityPassword := "NOT_SET";
       MessageHeader.MessageTypeMessageCode := "EQQ";
       MessageHeader.MessageTypeEventType := "Q04";
       MessageHeader.MessageTypeMessageStructure := "EQQ_Q04";
       MessageHeader.MessageControlIDSessionID := time.FormatRFC3339 now;
       MessageHeader.MessageControlIDMessageNum :=
         strconv.FormatInt10 (time.Unix now);
       MessageHeader.MessageControlIDInstanceNum := "0";
       MessageHeader.ProcessingIDProcessingID := "P";
       MessageHeader.ProcessingIDProcessingMode := "I";
       MessageHeader.AcceptAcknowledgementType := "messageId";
       MessageHeader.ApplicationAcknowledgementType := "";
       MessageHeader.CountryCode := "CH";
       MessageHeader.ProjectID := "NOT_SET";
     |};
     Request.RequestHeader := {|
       RequestHeader.XMLName := xml.zero;
       RequestHeader.ResultWaittimeMs := "NOT_SET";
     |};
     Request.MessageBody := None;
   |}, clock).

(** [NewRequestWithBody] creates a new ready-to-use i2b2 request, with a
    message body. *)
Definition NewRequestWithBody `{time.TimeOps} (body : MessageBody)
    (clock : time.Clock) : Request.t * time.Clock :=
  let '(req, clock) := NewRequest clock in
  let req := Request.set_MessageBody body req in
  (req, clock).

(** [SetConnectionInfo] sets the i2b2 connection information in the
    request. The receiver is a pointer: the function returns the request
    as it is after the five assignments. *)
Definition SetConnectionInfo (req : Request.t) (ci : ConnectionInfo.t)
  : Request.t :=
  let req := Request.set_MessageHeader
    (MessageHeader.set_SecurityDomain (ConnectionInfo.Domain ci)
       (Request.MessageHeader req)) req in
  let req := Request.set_MessageHeader
    (MessageHeader.set_SecurityUsername (ConnectionInfo.Username ci)
       (Request.MessageHeader req)) req in
  let req := Request.set_MessageHeader
    (MessageHeader.set_SecurityPassword (ConnectionInfo.Password ci)
       (Request.MessageHeader req)) req in
  let req := Request.set_MessageHeader
    (MessageHeader.set_ProjectID (ConnectionInfo.Project ci)
       (Request.MessageHeader req)) req in
  let req := Request.set_RequestHeader
    (RequestHeader.set_ResultWaittimeMs
       (strconv.FormatInt10 (time.Milliseconds (ConnectionInfo.WaitTime ci)))
       (Request.RequestHeader req)) req in
  req.

(** [CheckStatus]: nil when the status type is ["DONE"], otherwise an
    error made of the status text. *)
Definition CheckStatus (response : Response.t) : option errors.error :=
  let status :=
    ResponseHeader.ResultStatus.Status
      (ResponseHeader.ResultStatus (Response.ResponseHeader response)) in
  if negb (String.eqb (ResponseHeader.Status.Type_ status) "DONE")
  then Some (errors.New (ResponseHeader.Status.Text status))
  else None.

End models.

(** ** External packages the data source is built on *)

Module logrus.

(** [logrus.FieldLogger], with the methods the data source calls. A logger
    acts on the world [W] outside the program. [Infof] and [Debugf] receive
    the message their format and arguments produce; [Error] receives the
    error it is given. *)
Record FieldLogger (W : Type) := {
  Infof : string -> W -> W;
  Debugf : string -> W -> W;
  Error : errors.error -> W -> W;
}.
Arguments Infof {W}.
Arguments Debugf {W}.
Arguments Error {W}.

End logrus.

(** A Go slice that may be nil. *)
Definition slice (T : Type) : Type := option (list T).

(** [string(b)] for [b []byte]; the conversion of a nil slice is the empty
    string. *)
Definition string_of_bytes (b : slice Byte.byte) : string :=
  string_of_list_byte (default [] b).

(** [m[k]] for [m map[string]string]: the zero value when [k] is absent. *)
Definition index (m : gmap string string) (k : string) : string :=
  default "" (m !! k).

(** Code that acts on the world: a function from the world before to a
    result and the world after. *)
Definition Action (W A : Type) : Type := W -> A * W.

#[export] Instance Action_ret {W} : MRet (Action W) :=
  fun A (a : A) (w : W) => (a, w).

#[export] Instance Action_bind {W} : MBind (Action W) :=
  fun A B (k : A -> Action W B) (m : Action W A) (w : W) =>
    let '(a, w) := m w in k a w.

(** A call whose only result is its effect. *)
Definition effect {W} (f : W -> W) : Action W unit :=
  fun w => (tt, f w).

(** What the data source takes from the GeCo SDK, the [database] package and
    [time]: the types are opaque to it, and the functions are called as they
    are declared there. [World] is all that logging, the database and the
    handlers can act on. *)
Class Externals := {
  World : Type;
  DataSourceID : Type;
  DataSourceModel : Type;
  DataObject : Type;
  DataObjectSharedID : Type;
  PostgresDatabase : Type;
  (** [gecosdk.NewDataSourceModel(id, owner, name, type)], dereferenced *)
  NewDataSourceModel : DataSourceID -> string -> string -> string -> DataSourceModel;
  (** [database.NewPostgresDatabase(logger, host, port, dbName, schemaName, user, password)] *)
  NewPostgresDatabase :
    logrus.FieldLogger World -> string -> string -> string -> string -> string -> string ->
    Action World (option PostgresDatabase * option errors.error);
  (** [time.ParseDuration(s)] *)
  ParseDuration : string -> time.Duration * option errors.error;
}.

(** ** Package [datasource] *)

Module datasource.

Section Package.
Context `{Externals}.

(** [i2b2client.Client], as the constructor fills it. *)
Record Client := {
  Logger : option (logrus.FieldLogger World);
  Ci : models.ConnectionInfo.t;
}.

(** [DataSourceType] is the type of the data source. *)
Definition DataSourceType : string := "i2b2-geco".

(** Names of output data objects. *)
Definition outputNameExploreQueryCount : string := "count".
Definition outputNameExploreQueryPatientList : string := "patientList".

(** [I2b2DataSource] is an i2b2 data source for GeCo. Every method logs
    through [logger], so a data source has one: the field is not nil-able
    here. [db] is a pointer. *)
Record I2b2DataSource := {
  DataSourceModel_ : DataSourceModel;
  logger : logrus.FieldLogger World;
  db : option PostgresDatabase;
  i2b2Client : Client;
  i2b2OntMaxElements : string;
}.

(** [ds.db = v] *)
Definition set_db (v : option PostgresDatabase) (ds : I2b2DataSource)
  : I2b2DataSource :=
  {|
    DataSourceModel_ := DataSourceModel_ ds;
    logger := logger ds;
    db := v;
    i2b2Client := i2b2Client ds;
    i2b2OntMaxElements := i2b2OntMaxElements ds;
  |}.

(** [ds.i2b2Client = v] *)
Definition set_i2b2Client (v : Client) (ds : I2b2DataSource)
  : I2b2DataSource :=
  {|
    DataSourceModel_ := DataSourceModel_ ds;
    logger := logger ds;
    db := db ds;
    i2b2Client := v;
    i2b2OntMaxElements := i2b2OntMaxElements ds;
  |}.

(** [ds.i2b2OntMaxElements = v] *)
Definition set_i2b2OntMaxElements (v : string) (ds : I2b2DataSource)
  : I2b2DataSource :=
  {|
    DataSourceModel_ := DataSourceModel_ ds;
    logger := logger ds;
    db := db ds;
    i2b2Client := i2b2Client ds;
    i2b2OntMaxElements := v;
  |}.

(** [ci.WaitTime = v] *)
Definition set_WaitTime (v : time.Duration) (ci : models.ConnectionInfo.t)
  : models.ConnectionInfo.t :=
  {|
    models.ConnectionInfo.HiveURL := models.ConnectionInfo.HiveURL ci;
    models.ConnectionInfo.Domain := models.ConnectionInfo.Domain ci;
    models.ConnectionInfo.Username := models.ConnectionInfo.Username ci;
    models.ConnectionInfo.Password := models.ConnectionInfo.Password ci;
    models.ConnectionInfo.Project := models.ConnectionInfo.Project ci;
    models.ConnectionInfo.WaitTime := v;
  |}.

(** [logError] creates and logs an error. *)
Definition logError (ds : I2b2DataSource) (errMsg : string)
    (causedBy : option errors.error) : Action World errors.error :=
  let err :=
    match causedBy with
    | None => fmt.Errorf_v errMsg
    | Some causedBy => fmt.Errorf_v_v errMsg causedBy
    end in
  effect (logrus.Error (logger ds) err) ;;
  mret err.

(** [NewI2b2DataSource] creates an i2b2 data source. [ds] starts as the
    new, zero data source after its first two assignments
    ([DataSourceModel] and [logger]), which cannot fail. The result is the
    pair [(plugin, err)]. The parameter [logger] is [logger0] here, next to
    the field [logger]. *)
Definition NewI2b2DataSource (id : DataSourceID) (owner name : string)
    (logger0 : logrus.FieldLogger World) (config : gmap string string)
  : Action World (option I2b2DataSource * option errors.error) :=
  let ds := {|
    DataSourceModel_ := NewDataSourceModel id owner name DataSourceType;
    logger := logger0;
    db := None;
    i2b2Client := {|
      Logger := None;
      Ci := {|
        models.ConnectionInfo.HiveURL := "";
        models.ConnectionInfo.Domain := "";
        models.ConnectionInfo.Username := "";
        models.ConnectionInfo.Password := "";
        models.ConnectionInfo.Project := "";
        models.ConnectionInfo.WaitTime := 0;
      |};
    |};
    i2b2OntMaxElements := "";
  |} in
  (* initialize database connection *)
  '(db, err) ← NewPostgresDatabase logger0
      (index config "db.host") (index config "db.port")
      (index config "db.db-name") (index config "db.schema-name")
      (index config "db.user") (index config "db.password");
  let ds := set_db db ds in
  match err with
  | Some err =>
      err ← logError ds "initializing database connection" (Some err);
      mret (None, Some err)
  | None =>
      (* parse i2b2 API connection info and initialize i2b2 client *)
      let ci := {|
        models.ConnectionInfo.HiveURL := index config "i2b2.api.url";
        models.ConnectionInfo.Domain := index config "i2b2.api.domain";
        models.ConnectionInfo.Username := index config "i2b2.api.username";
        models.ConnectionInfo.Password := index config "i2b2.api.password";
        models.ConnectionInfo.Project := index config "i2b2.api.project";
        models.ConnectionInfo.WaitTime := 0;
      |} in
      let '(waitTime, err) := ParseDuration (index config "i2b2.api.wait-time") in
      let ci := set_WaitTime waitTime ci in
      match err with
      | Some err =>
          err ← logError ds "parsing i2b2 wait time" (Some err);
          mret (None, Some err)
      | None =>
          let ds := set_i2b2Client {| Logger := Some logger0; Ci := ci |} ds in
          let ds := set_i2b2OntMaxElements (index config "i2b2.api.ont-max-elements") ds in
          effect (logrus.Infof (logger ds)
                    ("initialized i2b2 data source for " +:+ models.ConnectionInfo.HiveURL ci)) ;;
          mret (Some ds, None)
      end
  end.

(** [type Operation string] *)
Definition Operation : Type := string.

(** The type of the handlers: from the acting user, the JSON parameters and
    the shared identifiers of the output data objects to the JSON results,
    the output data objects and an error. *)
Definition OperationHandler : Type :=
  string -> slice Byte.byte -> gmap string DataObjectSharedID ->
  Action World (slice Byte.byte * slice DataObject * option errors.error).

(** What [Query] uses of the rest of the package: the eight operation
    names, constants of type [Operation], and the six handler methods of
    the data source. *)
Class Operations := {
  OperationSearchConcept : Operation;
  OperationSearchModifier : Operation;
  OperationExploreQuery : Operation;
  OperationGetCohorts : Operation;
  OperationAddCohort : Operation;
  OperationDeleteCohort : Operation;
  OperationSurvivalQuery : Operation;
  OperationSearchOntology : Operation;
  SearchConceptHandler : I2b2DataSource -> OperationHandler;
  SearchModifierHandler : I2b2DataSource -> OperationHandler;
  ExploreQueryHandler : I2b2DataSource -> OperationHandler;
  GetCohortsHandler : I2b2DataSource -> OperationHandler;
  AddCohortHandler : I2b2DataSource -> OperationHandler;
  DeleteCohortHandler : I2b2DataSource -> OperationHandler;
}.

Context `{Operations}.

(** [Query] implements the data source interface Query function. The
    statements after the [switch] are [call]; a case that sets [handler]
    goes on with them, the other cases return. *)
Definition Query (ds : I2b2DataSource) (userID operation : string)
    (jsonParameters : slice Byte.byte)
    (outputDataObjectsSharedIDs : gmap string DataObjectSharedID)
  : Action World (slice Byte.byte * slice DataObject * option errors.error) :=
  effect (logrus.Infof (logger ds)
            ("executing operation " +:+ operation +:+ " for user " +:+ userID)) ;;
  effect (logrus.Debugf (logger ds)
            ("parameters: " +:+ string_of_bytes jsonParameters)) ;;
  let call (handler : OperationHandler) :=
    '(jsonResults, outputDataObjects, err) ←
      handler userID jsonParameters outputDataObjectsSharedIDs;
    match err with
    | Some err =>
        err ← logError ds ("executing operation " +:+ operation) (Some err);
        mret (None, None, Some err)
    | None =>
        effect (logrus.Infof (logger ds)
                  ("successfully executed operation " +:+ operation
                   +:+ " for user " +:+ userID)) ;;
        effect (logrus.Debugf (logger ds)
                  ("results: " +:+ string_of_bytes jsonResults)) ;;
        mret (jsonResults, outputDataObjects, None)
    end in
  if String.eqb operation OperationSearchConcept then
    call (SearchConceptHandler ds)
  else if String.eqb operation OperationSearchModifier then
    call (SearchModifierHandler ds)
  else if String.eqb operation OperationExploreQuery then
    call (ExploreQueryHandler ds)
  else if String.eqb operation OperationGetCohorts then
    call (GetCohortsHandler ds)
  else if String.eqb operation OperationAddCohort then
    call (AddCohortHandler ds)
  else if String.eqb operation OperationDeleteCohort then
    call (DeleteCohortHandler ds)
  else if String.eqb operation OperationSurvivalQuery then
    err ← logError ds "operation survivalQuery not implemented" None;
    mret (None, None, Some err)
  else if String.eqb operation OperationSearchOntology then
    err ← logError ds "operation searchOntology not implemented" None;
    mret (None, None, Some err)
  else
    err ← logError ds ("unknown query requested (" +:+ operation +:+ ")") None;
    mret (None, None, Some err).

End Package.

End datasource.

(** ** Instances to run the code on

    A clock in UTC with a resolution of one second, a world that records
    log lines and counts handler calls, and handlers that count. They are
    what the examples and the concrete cases below are evaluated on; the
    theorems hold for every instance. *)

Module utc.

(** Two decimal digits, and at least four: the paddings of the RFC 3339
    layout for a value that is not negative. *)
Definition pad2 (n : Z) : string :=
  (if n <? 10 then "0" else "") +:+ strconv.FormatInt10 n.

Definition pad4 (n : Z) : string :=
  (if n <? 10 then "000" else if n <? 100 then "00" else if n <? 1000 then "0" else "")
  +:+ strconv.FormatInt10 n.

(** The civil date (year, month, day) of a day number counted from
    1970-01-01, in the proleptic Gregorian calendar. *)
Definition civil (days : Z) : Z * Z * Z :=
  let z := days + 719468 in
  let era := z / 146097 in
  let doe := z - era * 146097 in
  let yoe := (doe - doe / 1460 + doe / 36524 - doe / 146096) / 365 in
  let doy := doe - (365 * yoe + yoe / 4 - yoe / 100) in
  let mp := (5 * doy + 2) / 153 in
  let d := doy - (153 * mp + 2) / 5 + 1 in
  let m := if mp <? 10 then mp + 3 else mp - 9 in
  let y := yoe + era * 400 + (if m <=? 2 then 1 else 0) in
  (y, m, d).

(** [t.Format(time.RFC3339)] for an instant [t], in seconds since the
    epoch, in the UTC location and a year from 0 to 9999. *)
Definition FormatRFC3339 (t : Z) : string :=
  let '(y, m, d) := civil (t / 86400) in
  let s := t mod 86400 in
  pad4 y +:+ "-" +:+ pad2 m +:+ "-" +:+ pad2 d +:+ "T"
  +:+ pad2 (s / 3600) +:+ ":" +:+ pad2 (s mod 3600 / 60) +:+ ":" +:+ pad2 (s mod 60)
  +:+ "Z".

Definition ops : time.TimeOps := {|
  time.Time := Z;
  time.FormatRFC3339 := FormatRFC3339;
  time.Unix := fun t => t;
|}.

(** A clock started at [t0] that advances by one second at every reading. *)
Definition clock (t0 : Z) : @time.Clock ops :=
  @time.Build_Clock ops (fun n => t0 + Z.of_nat n) 0%nat.

End utc.

Module durations.

(** The unit map of [time.ParseDuration]. *)
Definition unitMap (u : string) : option Z :=
  if String.eqb u "ns" then Some time.Nanosecond
  else if String.eqb u "us" then Some time.Microsecond
  else if String.eqb u "µs" then Some time.Microsecond
  else if String.eqb u "μs" then Some time.Microsecond
  else if String.eqb u "ms" then Some time.Millisecond
  else if String.eqb u "s" then Some time.Second
  else if String.eqb u "m" then Some time.Minute
  else if String.eqb u "h" then Some time.Hour
  else None.

Definition is_digit (c : ascii) : bool :=
  let n := N_of_ascii c in ((48 <=? n) && (n <=? 57))%N.

Definition is_dot (c : ascii) : bool :=
  (N_of_ascii c =? 46)%N.

(** [leadingInt]: the leading decimal digits of [s] as a number, continuing
    [x], and the rest of [s]; [None] when the number leaves [1<<63]. *)
Fixpoint leadingInt (x : Z) (s : string) : option (Z * string) :=
  match s with
  | String c rest =>
      if is_digit c then
        if x >? 2 ^ 63 / 10 then None else
        let x := x * 10 + (Z.of_N (N_of_ascii c) - 48) in
        if x >? 2 ^ 63 then None else leadingInt x rest
      else Some (x, s)
  | EmptyString => Some (x, s)
  end.

(** The leading characters of [s] that are neither a digit nor a dot, and
    the rest of [s]. *)
Fixpoint leadingUnit (s : string) : string * string :=
  match s with
  | String c rest =>
      if is_dot c || is_digit c then ("", s)
      else let '(u, rest) := leadingUnit rest in (String c u, rest)
  | EmptyString => ("", s)
  end.

(** How a duration string is refused. *)
Inductive refusal : Type :=
| invalid
| missingUnit
| unknownUnit (u : string).

(** The loop of [time.ParseDuration] over the groups of a number and a
    unit; [d] is the sum so far, a [uint64]. A group with a dot, which Go
    computes in floating point, is refused here as [invalid]. Each turn
    consumes a character at least: [fuel] above the length of [s] is
    enough. *)
Fixpoint groups (fuel : nat) (s : string) (d : Z) : refusal + Z :=
  match fuel with
  | O => inl invalid
  | S fuel =>
      match s with
      | EmptyString => inr d
      | String c _ =>
          if negb (is_dot c || is_digit c) then inl invalid else
          match leadingInt 0 s with
          | None => inl invalid
          | Some (v, rest) =>
              match rest with
              | String c' _ => if is_dot c' then inl invalid else
                  let '(u, rest) := leadingUnit rest in
                  if String.eqb u "" then inl missingUnit else
                  match unitMap u with
                  | None => inl (unknownUnit u)
                  | Some unit =>
                      if v >? 2 ^ 63 / unit then inl invalid else
                      let d := (d + v * unit) mod 2 ^ 64 in
                      if d >? 2 ^ 63 then inl invalid else groups fuel rest d
                  end
              | EmptyString => inl missingUnit
              end
          end
      end
  end.

(** [quote] for a string of plain characters: the string between double
    quotes. *)
Definition quote (s : string) : string :=
  String (ascii_of_N 34) (s +:+ String (ascii_of_N 34) "").

(** [time.ParseDuration] on the durations written without a fractional
    part, a sign first if any: ["5s"], ["1h30m"], ["-250ms"], ["0"]. *)
Definition ParseDuration (s : string) : time.Duration * option errors.error :=
  let orig := s in
  let refuse (r : refusal) : time.Duration * option errors.error :=
    (0, Some (errors.New
       match r with
       | invalid => "time: invalid duration " +:+ quote orig
       | missingUnit => "time: missing unit in duration " +:+ quote orig
       | unknownUnit u =>
           "time: unknown unit " +:+ quote u +:+ " in duration " +:+ quote orig
       end)) in
  let '(neg, s) :=
    match s with
    | String "-" rest => (true, rest)
    | String "+" rest => (false, rest)
    | _ => (false, s)
    end in
  if String.eqb s "0" then (0, None)
  else if String.eqb s "" then refuse invalid
  else
    match groups (S (String.length s)) s 0 with
    | inl r => refuse r
    | inr d =>
        if neg then (- d, None)
        else if d >? 2 ^ 63 - 1 then refuse invalid
        else (d, None)
    end.

End durations.

Module testbed.

(** The world of the tests: the lines logged so far, latest first, and the
    number of handler calls so far. *)
Record TestWorld := {
  journal : list string;
  handlerCalls : nat;
}.

Definition write (line : string) (w : TestWorld) : TestWorld :=
  {| journal := line :: journal w; handlerCalls := handlerCalls w |}.

Definition logger : logrus.FieldLogger TestWorld := {|
  logrus.Infof := fun msg => write ("info: " +:+ msg);
  logrus.Debugf := fun msg => write ("debug: " +:+ msg);
  logrus.Error := fun err => write ("error: " +:+ errors.Error err);
|}.

(** A database that is reachable when it is given a host. *)
Definition connect (l : logrus.FieldLogger TestWorld)
    (host port dbName schemaName user password : string)
  : Action TestWorld (option string * option errors.error) :=
  if String.eqb host ""
  then mret (None, Some (errors.New "no database host"))
  else mret (Some host, None).

Definition externals : Externals := {|
  World := TestWorld;
  DataSourceID := string;
  DataSourceModel := string * string * string * string;
  DataObject := string;
  DataObjectSharedID := string;
  PostgresDatabase := string;
  NewDataSourceModel := fun id owner name type => (id, owner, name, type);
  NewPostgresDatabase := connect;
  ParseDuration := durations.ParseDuration;
|}.

(** A handler that counts its call and answers with [res], [objs] and
    [err]. *)
Definition counting (res : slice Byte.byte) (objs : slice string)
    (err : option errors.error) : @datasource.OperationHandler externals :=
  fun userID jsonParameters outputDataObjectsSharedIDs w =>
    ((res, objs, err),
     {| journal := journal w; handlerCalls := S (handlerCalls w) |}).

(** Modelled from the spec: the declarations of the operation names are in
    a file of the package that is not part of the sources at hand; the
    names are those of the operation dispatcher (search-concept,
    search-modifier, explore-query, get-cohorts, add-cohort, delete-cohort,
    survival-query, search-ontology). The handlers count their calls;
    deleting a cohort fails, after it has produced results. *)
Definition operations : @datasource.Operations externals := {|
  datasource.OperationSearchConcept := "search-concept";
  datasource.OperationSearchModifier := "search-modifier";
  datasource.OperationExploreQuery := "explore-query";
  datasource.OperationGetCohorts := "get-cohorts";
  datasource.OperationAddCohort := "add-cohort";
  datasource.OperationDeleteCohort := "delete-cohort";
  datasource.OperationSurvivalQuery := "survival-query";
  datasource.OperationSearchOntology := "search-ontology";
  datasource.SearchConceptHandler := fun ds => counting (Some []) (Some []) None;
  datasource.SearchModifierHandler := fun ds => counting (Some []) (Some []) None;
  datasource.ExploreQueryHandler := fun ds => counting (Some []) (Some ["count"]) None;
  datasource.GetCohortsHandler := fun ds => counting (Some []) None None;
  datasource.AddCohortHandler := fun ds => counting None None None;
  datasource.DeleteCohortHandler := fun ds =>
    counting (Some []) (Some ["partial"]) (Some (errors.New "cohort not found"));
|}.

Definition start : TestWorld := {| journal := []; handlerCalls := 0 |}.

(** The connection information of the tests. *)
Definition ci : models.ConnectionInfo.t := {|
  models.ConnectionInfo.HiveURL := "http://hive.example/pm";
  models.ConnectionInfo.Domain := "d";
  models.ConnectionInfo.Username := "u";
  models.ConnectionInfo.Password := "p";
  models.ConnectionInfo.Project := "proj1";
  models.ConnectionInfo.WaitTime := 5 * time.Second;
|}.

(** A data source of the tests. *)
Definition ds : @datasource.I2b2DataSource externals :=
  @datasource.Build_I2b2DataSource externals
    ("id", "owner", "name", datasource.DataSourceType)
    logger
    (Some "localhost")
    (@datasource.Build_Client externals (Some logger) ci)
    "200".

End testbed.

(** ** Vocabulary of the statements *)

(** The status of a response: [response.ResponseHeader.ResultStatus.Status]. *)
Definition statusOf (response : models.Response.t)
  : models.ResponseHeader.Status.t :=
  models.ResponseHeader.ResultStatus.Status
    (models.ResponseHeader.ResultStatus (models.Response.ResponseHeader response)).

(** A response whose status has the type [type] and the text [text], and
    nothing else. *)
Definition responseWith (type text : string) : models.Response.t :=
  let header := {|
    models.MessageHeader.XMLName := xml.zero;
    models.MessageHeader.I2b2VersionCompatible := "";
    models.MessageHeader.Hl7VersionCompatible := "";
    models.MessageHeader.SendingApplicationApplicationName := "";
    models.MessageHeader.SendingApplicationApplicationVersion := "";
    models.MessageHeader.SendingFacilityFacilityName := "";
    models.MessageHeader.ReceivingApplicationApplicationName := "";
    models.MessageHeader.ReceivingApplicationApplicationVersion := "";
    models.MessageHeader.ReceivingFacilityFacilityName := "";
    models.MessageHeader.DatetimeOfMessage := "";
    models.MessageHeader.SecurityDomain := "";
    models.MessageHeader.SecurityUsername := "";
    models.MessageHeader.SecurityPassword := "";
    models.MessageHeader.MessageTypeMessageCode := "";
    models.MessageHeader.MessageTypeEventType := "";
    models.MessageHeader.MessageTypeMessageStructure := "";
    models.MessageHeader.MessageControlIDSessionID := "";
    models.MessageHeader.MessageControlIDMessageNum := "";
    models.MessageHeader.MessageControlIDInstanceNum := "";
    models.MessageHeader.ProcessingIDProcessingID := "";
    models.MessageHeader.ProcessingIDProcessingMode := "";
    models.MessageHeader.AcceptAcknowledgementType := "";
    models.MessageHeader.ApplicationAcknowledgementType := "";
    models.MessageHeader.CountryCode := "";
    models.MessageHeader.ProjectID := "";
  |} in
  {|
    models.Response.XMLName := xml.zero;
    models.Response.MessageHeader := header;
    models.Response.RequestHeader := {|
      models.RequestHeader.XMLName := xml.zero;
      models.RequestHeader.ResultWaittimeMs := "";
    |};
    models.Response.ResponseHeader := {|
      models.ResponseHeader.XMLName := xml.zero;
      models.ResponseHeader.Info := {|
        models.ResponseHeader.Info.Text := "";
        models.ResponseHeader.Info.URL := "";
      |};
      models.ResponseHeader.ResultStatus := {|
        models.ResponseHeader.ResultStatus.Status := {|
          models.ResponseHeader.Status.Text := text;
          models.ResponseHeader.Status.Type_ := type;
        |};
        models.ResponseHeader.ResultStatus.PollingURL := {|
          models.ResponseHeader.PollingURL.Text := "";
          models.ResponseHeader.PollingURL.IntervalMs := "";
        |};
        models.ResponseHeader.ResultStatus.Conditions := {|
          models.ResponseHeader.Conditions.Condition := [];
        |};
      |};
    |};
    models.Response.MessageBody := None;
  |}.

(** The clock reading that the next call of [time.Now()] returns. *)
Definition nextReading `{time.TimeOps} (clock : time.Clock) : time.Time :=
  time.reading clock (time.ticks clock).

Section DispatchVocabulary.
Context `{Externals} `{!datasource.Operations}.

(** The eight operation names of the [switch] of [Query], in the order of
    its cases. *)
Definition operationNames : list datasource.Operation :=
  [ datasource.OperationSearchConcept;
    datasource.OperationSearchModifier;
    datasource.OperationExploreQuery;
    datasource.OperationGetCohorts;
    datasource.OperationAddCohort;
    datasource.OperationDeleteCohort;
    datasource.OperationSurvivalQuery;
    datasource.OperationSearchOntology ].

(** The operation dispatcher table: the six cases of the [switch] that set
    a handler, each name with the handler of the data source [ds]. *)
Definition handlerTable (ds : datasource.I2b2DataSource)
  : list (datasource.Operation * datasource.OperationHandler) :=
  [ (datasource.OperationSearchConcept, datasource.SearchConceptHandler ds);
    (datasource.OperationSearchModifier, datasource.SearchModifierHandler ds);
    (datasource.OperationExploreQuery, datasource.ExploreQueryHandler ds);
    (datasource.OperationGetCohorts, datasource.GetCohortsHandler ds);
    (datasource.OperationAddCohort, datasource.AddCohortHandler ds);
    (datasource.OperationDeleteCohort, datasource.DeleteCohortHandler ds) ].

(** The world once [Query] has logged its two entry lines. *)
Definition entered (ds : datasource.I2b2DataSource) (userID operation : string)
    (jsonParameters : slice Byte.byte) (w : World) : World :=
  logrus.Debugf (datasource.logger ds)
    ("parameters: " +:+ string_of_bytes jsonParameters)
    (logrus.Infof (datasource.logger ds)
       ("executing operation " +:+ operation +:+ " for user " +:+ userID) w).

(** The message of the error for an operation name that is not known. *)
Definition unknownOperation (operation : string) : string :=
  "unknown query requested (" +:+ operation +:+ ")".

(** The message of the error around the error [cause] of a handler. *)
Definition handlerFailure (operation : string) (cause : errors.error) : string :=
  "executing operation " +:+ operation +:+ ": " +:+ errors.Error cause.

(** The six arguments that the constructor gives [NewPostgresDatabase]
    after the logger, applied to a function [f] of them. *)
Definition databaseConfig {A} (config : gmap string string)
    (f : string -> string -> string -> string -> string -> string -> A) : A :=
  f (index config "db.host") (index config "db.port")
    (index config "db.db-name") (index config "db.schema-name")
    (index config "db.user") (index config "db.password").

(** The connection information that the constructor reads in [config],
    with the wait time [waitTime]. *)
Definition connectionInfoOf (config : gmap string string)
    (waitTime : time.Duration) : models.ConnectionInfo.t :=
  {|
    models.ConnectionInfo.HiveURL := index config "i2b2.api.url";
    models.ConnectionInfo.Domain := index config "i2b2.api.domain";
    models.ConnectionInfo.Username := index config "i2b2.api.username";
    models.ConnectionInfo.Password := index config "i2b2.api.password";
    models.ConnectionInfo.Project := index config "i2b2.api.project";
    models.ConnectionInfo.WaitTime := waitTime;
  |}.

End DispatchVocabulary.

(** A configuration of the tests: a database host, a wait time, and no
    credentials at all. *)
Definition bareConfig (waitTime : string) : gmap string string :=
  {[ "db.host" := "localhost"; "i2b2.api.wait-time" := waitTime ]}.

(** The configuration keys that [NewI2b2DataSource] reads: those of the
    database, then those of the i2b2 API. *)
Definition configKeys : list string :=
  [ "db.host"; "db.port"; "db.db-name"; "db.schema-name"; "db.user"; "db.password";
    "i2b2.api.url"; "i2b2.api.domain"; "i2b2.api.username"; "i2b2.api.password";
    "i2b2.api.project"; "i2b2.api.wait-time"; "i2b2.api.ont-max-elements" ].

(** The response [r] with another polling descriptor and other conditions,
    and the status it has. *)
Definition withPolling (url intervalMs : string)
    (conditions : list models.ResponseHeader.Condition.t)
    (r : models.Response.t) : models.Response.t :=
  {|
    models.Response.XMLName := models.Response.XMLName r;
    models.Response.MessageHeader := models.Response.MessageHeader r;
    models.Response.RequestHeader := models.Response.RequestHeader r;
    models.Response.ResponseHeader := {|
      models.ResponseHeader.XMLName :=
        models.ResponseHeader.XMLName (models.Response.ResponseHeader r);
      models.ResponseHeader.Info :=
        models.ResponseHeader.Info (models.Response.ResponseHeader r);
      models.ResponseHeader.ResultStatus := {|
        models.ResponseHeader.ResultStatus.Status := statusOf r;
        models.ResponseHeader.ResultStatus.PollingURL := {|
          models.ResponseHeader.PollingURL.Text := url;
          models.ResponseHeader.PollingURL.IntervalMs := intervalMs;
        |};
        models.ResponseHeader.ResultStatus.Conditions := {|
          models.ResponseHeader.Conditions.Condition := conditions;
        |};
      |};
    |};
    models.Response.MessageBody := models.Response.MessageBody r;
  |}.

(** The wait time that [SetConnectionInfo] writes, in milliseconds. *)
Definition waitMs (ci : models.ConnectionInfo.t) : Z :=
  models.ConnectionInfo.WaitTime ci ÷ 1000000.

(** The connection information [ci] with another hive URL and another wait
    time. *)
Definition withEndpoint (url : string) (waitTime : time.Duration)
    (ci : models.ConnectionInfo.t) : models.ConnectionInfo.t :=
  {|
    models.ConnectionInfo.HiveURL := url;
    models.ConnectionInfo.Domain := models.ConnectionInfo.Domain ci;
    models.ConnectionInfo.Username := models.ConnectionInfo.Username ci;
    models.ConnectionInfo.Password := models.ConnectionInfo.Password ci;
    models.ConnectionInfo.Project := models.ConnectionInfo.Project ci;
    models.ConnectionInfo.WaitTime := waitTime;
  |}.

Section OutcomeVocabulary.
Context `{Externals}.

(** The world once [Query] has logged its two exit lines, after the
    handler has left the world [w]. *)
Definition left (ds : datasource.I2b2DataSource) (userID operation : string)
    (jsonResults : slice Byte.byte) (w : World) : World :=
  logrus.Debugf (datasource.logger ds)
    ("results: " +:+ string_of_bytes jsonResults)
    (logrus.Infof (datasource.logger ds)
       ("successfully executed operation " +:+ operation
        +:+ " for user " +:+ userID) w).

(** The message of the error for a database that cannot be initialised. *)
Definition databaseFailure (cause : errors.error) : string :=
  "initializing database connection: " +:+ errors.Error cause.

End OutcomeVocabulary.

(** The operations of the tests, where deleting a cohort fails with the
    error [cause] after it has produced results. *)
Definition failingWith (cause : errors.error)
  : @datasource.Operations testbed.externals :=
  @datasource.Build_Operations testbed.externals
    "search-concept" "search-modifier" "explore-query" "get-cohorts"
    "add-cohort" "delete-cohort" "survival-query" "search-ontology"
    (fun ds => testbed.counting (Some []) (Some []) None)
    (fun ds => testbed.counting (Some []) (Some []) None)
    (fun ds => testbed.counting (Some []) (Some ["count"]) None)
    (fun ds => testbed.counting (Some []) None None)
    (fun ds => testbed.counting None None None)
    (fun ds => testbed.counting (Some []) (Some ["partial"]) (Some cause)).

(** ** The response validator *)

(** [CheckStatus] on the two scenarios of the protocol. *)
Example CheckStatus_DONE :
  models.CheckStatus (responseWith "DONE" "") = None.
Proof. reflexivity. Qed.

Example CheckStatus_ERROR :
  models.CheckStatus (responseWith "ERROR" "bad query")
  = Some (errors.New "bad query").
Proof. reflexivity. Qed.

(** C1: [CheckStatus] returns nil if and only if the status type is exactly
    ["DONE"]; for any other status type, the empty one included, it returns
    an error whose message is the status text as it is, the empty text
    included. *)
Theorem CheckStatus_nil_iff_DONE (response : models.Response.t) :
  (models.CheckStatus response = None
   <-> models.ResponseHeader.Status.Type_ (statusOf response) = "DONE")
  /\ (models.ResponseHeader.Status.Type_ (statusOf response) <> "DONE"
      -> exists err,
           models.CheckStatus response = Some err
           /\ errors.Error err = models.ResponseHeader.Status.Text (statusOf response)).
Proof.
  unfold models.CheckStatus; fold (statusOf response).
  destruct (String.eqb_spec
              (models.ResponseHeader.Status.Type_ (statusOf response)) "DONE")
    as [Hdone | Hother]; cbn.
  - split; [tauto | congruence].
  - split.
    + split; [discriminate | contradiction].
    + intros _. eexists; split; reflexivity.
Qed.

(** The status types ["DONE"], [""] and ["done"] with an empty text, and
    ["ERROR"] with a text. *)
Lemma CheckStatus_nil_iff_DONE_witness :
  models.CheckStatus (responseWith "DONE" "ignored") = None
  /\ (exists err, models.CheckStatus (responseWith "" "") = Some err
                  /\ errors.Error err = "")
  /\ (exists err, models.CheckStatus (responseWith "done" "") = Some err
                  /\ errors.Error err = "")
  /\ (exists err, models.CheckStatus (responseWith "ERROR" "bad query") = Some err
                  /\ errors.Error err = "bad query").
Proof.
  split; [| split; [| split]].
  - apply (proj1 (CheckStatus_nil_iff_DONE (responseWith "DONE" "ignored"))).
    reflexivity.
  - apply (proj2 (CheckStatus_nil_iff_DONE (responseWith "" ""))).
    discriminate.
  - apply (proj2 (CheckStatus_nil_iff_DONE (responseWith "done" ""))).
    discriminate.
  - apply (proj2 (CheckStatus_nil_iff_DONE (responseWith "ERROR" "bad query"))).
    discriminate.
Defined.

(** ** The envelope builder *)

(** [FormatInt10] is the decimal rendering: read back, it gives the number. *)
Lemma ParseInt10_FormatInt10 (i : Z) :
  strconv.ParseInt10 (strconv.FormatInt10 i) = Some i.
Proof.
  unfold strconv.ParseInt10, strconv.FormatInt10.
  rewrite NilZero.isi.
  - cbn. now rewrite DecimalZ.of_to.
  - destruct i; cbn; try discriminate.
    intros [= E]. now apply Unsigned.to_uint_nonnil in E.
  - destruct i; cbn; try discriminate.
    intros [= E]. now apply Unsigned.to_uint_nonnil in E.
Qed.

Example Milliseconds_truncates :
  time.Milliseconds 1999999 = 1 /\ time.Milliseconds (-1999999) = -1
  /\ time.Milliseconds 999999 = 0.
Proof. repeat split. Qed.

(** The scenario of the connection information of the tests on a new
    request: the wait time of five seconds and the project. *)
Example SetConnectionInfo_scenario :
  let req :=
    models.SetConnectionInfo
      (fst (models.NewRequest (utc.clock 1622548800))) testbed.ci in
  models.RequestHeader.ResultWaittimeMs (models.Request.RequestHeader req) = "5000"
  /\ models.MessageHeader.ProjectID (models.Request.MessageHeader req) = "proj1".
Proof. split; reflexivity. Qed.

(** C5: [SetConnectionInfo] overwrites the security domain, username and
    password and the project identifier of the message header, and the
    result wait time of the request header; every other field of the message
    header is as it was (and so is the rest of the request). *)
Theorem SetConnectionInfo_frame (req : models.Request.t)
    (ci : models.ConnectionInfo.t) :
  let before := models.Request.MessageHeader req in
  let after := models.Request.MessageHeader (models.SetConnectionInfo req ci) in
  (* the five fields written *)
  (models.MessageHeader.SecurityDomain after = models.ConnectionInfo.Domain ci
   /\ models.MessageHeader.SecurityUsername after = models.ConnectionInfo.Username ci
   /\ models.MessageHeader.SecurityPassword after = models.ConnectionInfo.Password ci
   /\ models.MessageHeader.ProjectID after = models.ConnectionInfo.Project ci
   /\ models.RequestHeader.ResultWaittimeMs
        (models.Request.RequestHeader (models.SetConnectionInfo req ci))
      = strconv.FormatInt10 (time.Milliseconds (models.ConnectionInfo.WaitTime ci)))
  (* the other fields of the message header *)
  /\ (models.MessageHeader.XMLName after = models.MessageHeader.XMLName before
      /\ models.MessageHeader.I2b2VersionCompatible after
         = models.MessageHeader.I2b2VersionCompatible before
      /\ models.MessageHeader.Hl7VersionCompatible after
         = models.MessageHeader.Hl7VersionCompatible before
      /\ models.MessageHeader.SendingApplicationApplicationName after
         = models.MessageHeader.SendingApplicationApplicationName before
      /\ models.MessageHeader.SendingApplicationApplicationVersion after
         = models.MessageHeader.SendingApplicationApplicationVersion before
      /\ models.MessageHeader.SendingFacilityFacilityName after
         = models.MessageHeader.SendingFacilityFacilityName before
      /\ models.MessageHeader.ReceivingApplicationApplicationName after
         = models.MessageHeader.ReceivingApplicationApplicationName before
      /\ models.MessageHeader.ReceivingApplicationApplicationVersion after
         = models.MessageHeader.ReceivingApplicationApplicationVersion before
      /\ models.MessageHeader.ReceivingFacilityFacilityName after
         = models.MessageHeader.ReceivingFacilityFacilityName before
      /\ models.MessageHeader.DatetimeOfMessage after
         = models.MessageHeader.DatetimeOfMessage before
      /\ models.MessageHeader.MessageTypeMessageCode after
         = models.MessageHeader.MessageTypeMessageCode before
      /\ models.MessageHeader.MessageTypeEventType after
         = models.MessageHeader.MessageTypeEventType before
      /\ models.MessageHeader.MessageTypeMessageStructure after
         = models.MessageHeader.MessageTypeMessageStructure before
      /\ models.MessageHeader.MessageControlIDSessionID after
         = models.MessageHeader.MessageControlIDSessionID before
      /\ models.MessageHeader.MessageControlIDMessageNum after
         = models.MessageHeader.MessageControlIDMessageNum before
      /\ models.MessageHeader.MessageControlIDInstanceNum after
         = models.MessageHeader.MessageControlIDInstanceNum before
      /\ models.MessageHeader.ProcessingIDProcessingID after
         = models.MessageHeader.ProcessingIDProcessingID before
      /\ models.MessageHeader.ProcessingIDProcessingMode after
         = models.MessageHeader.ProcessingIDProcessingMode before
      /\ models.MessageHeader.AcceptAcknowledgementType after
         = models.MessageHeader.AcceptAcknowledgementType before
      /\ models.MessageHeader.ApplicationAcknowledgementType after
         = models.MessageHeader.ApplicationAcknowledgementType before
      /\ models.MessageHeader.CountryCode after
         = models.MessageHeader.CountryCode before)
  (* the rest of the request *)
  /\ (models.Request.XMLName (models.SetConnectionInfo req ci) = models.Request.XMLName req
      /\ models.Request.XMLNSMSG (models.SetConnectionInfo req ci) = models.Request.XMLNSMSG req
      /\ models.Request.XMLNSPDO (models.SetConnectionInfo req ci) = models.Request.XMLNSPDO req
      /\ models.Request.XMLNSONT (models.SetConnectionInfo req ci) = models.Request.XMLNSONT req
      /\ models.Request.XMLNSCRCPDO (models.SetConnectionInfo req ci)
         = models.Request.XMLNSCRCPDO req
      /\ models.Request.XMLNSCRCPSM (models.SetConnectionInfo req ci)
         = models.Request.XMLNSCRCPSM req
      /\ models.RequestHeader.XMLName
           (models.Request.RequestHeader (models.SetConnectionInfo req ci))
         = models.RequestHeader.XMLName (models.Request.RequestHeader req)
      /\ models.Request.MessageBody (models.SetConnectionInfo req ci)
         = models.Request.MessageBody req).
Proof.
  cbv zeta. repeat split.
Qed.

(** C6: after [SetConnectionInfo], [ResultWaittimeMs] is the decimal string
    of the wait time in whole milliseconds: it reads back as the wait time
    divided by a million, toward zero. Five seconds give ["5000"], the
    project ["proj1"] gives the project identifier ["proj1"], and a wait time
    of zero gives ["0"], as any other number would. *)
Theorem SetConnectionInfo_wait_time (req : models.Request.t)
    (ci : models.ConnectionInfo.t) :
  let req' := models.SetConnectionInfo req ci in
  let field := models.RequestHeader.ResultWaittimeMs (models.Request.RequestHeader req') in
  field = strconv.FormatInt10 (models.ConnectionInfo.WaitTime ci ÷ 1000000)
  /\ strconv.ParseInt10 field = Some (models.ConnectionInfo.WaitTime ci ÷ 1000000)
  /\ (models.ConnectionInfo.WaitTime ci = 5 * time.Second -> field = "5000")
  /\ (models.ConnectionInfo.Project ci = "proj1"
      -> models.MessageHeader.ProjectID (models.Request.MessageHeader req') = "proj1")
  /\ (models.ConnectionInfo.WaitTime ci = 0 -> field = "0").
Proof.
  cbv zeta. cbn [models.SetConnectionInfo].
  repeat split.
  - apply ParseInt10_FormatInt10.
  - intros E. cbn. unfold time.Milliseconds. now rewrite E.
  - intros E. cbn. exact E.
  - intros E. cbn. unfold time.Milliseconds. now rewrite E.
Qed.

(** The connection information of the tests on a new request, and a wait
    time of zero on the same request. *)
Lemma SetConnectionInfo_wait_time_witness :
  let req := fst (models.NewRequest (utc.clock 1622548800)) in
  let zero := datasource.set_WaitTime 0 testbed.ci in
  models.RequestHeader.ResultWaittimeMs
    (models.Request.RequestHeader (models.SetConnectionInfo req testbed.ci)) = "5000"
  /\ models.MessageHeader.ProjectID
       (models.Request.MessageHeader (models.SetConnectionInfo req testbed.ci)) = "proj1"
  /\ models.RequestHeader.ResultWaittimeMs
       (models.Request.RequestHeader (models.SetConnectionInfo req zero)) = "0".
Proof.
  cbv zeta.
  split; [| split].
  - apply (SetConnectionInfo_wait_time
             (fst (models.NewRequest (utc.clock 1622548800))) testbed.ci).
    reflexivity.
  - apply (SetConnectionInfo_wait_time
             (fst (models.NewRequest (utc.clock 1622548800))) testbed.ci).
    reflexivity.
  - apply (SetConnectionInfo_wait_time
             (fst (models.NewRequest (utc.clock 1622548800)))
             (datasource.set_WaitTime 0 testbed.ci)).
    reflexivity.
Defined.

(** C9: [SetConnectionInfo] is idempotent: set twice with the same
    connection information, the request is as it is after the first time. *)
Theorem SetConnectionInfo_idempotent (req : models.Request.t)
    (ci : models.ConnectionInfo.t) :
  models.SetConnectionInfo (models.SetConnectionInfo req ci) ci
  = models.SetConnectionInfo req ci.
Proof. reflexivity. Qed.

(** A new request at noon of 2021-06-01, UTC. *)
Example NewRequest_at_noon :
  let h := models.Request.MessageHeader (fst (models.NewRequest (utc.clock 1622548800))) in
  models.MessageHeader.MessageControlIDSessionID h = "2021-06-01T12:00:00Z"
  /\ models.MessageHeader.MessageControlIDMessageNum h = "1622548800"
  /\ models.MessageHeader.MessageControlIDInstanceNum h = "0"
  /\ models.MessageHeader.DatetimeOfMessage h = "2021-06-01T12:00:00Z".
Proof. repeat split. Qed.

Section Builder.
Context `{time.TimeOps}.

(** C7: a request of the builder, with or without a body, has as its
    message control identifier the timestamp string of the current time as
    session id, the current time as an integer (the decimal string of its
    Unix seconds, which reads back as that number) as message number, and
    ["0"] as instance number. *)
Theorem NewRequest_control_id (clock : time.Clock) (body : models.MessageBody) :
  let now := nextReading clock in
  let sets (req : models.Request.t) :=
    let h := models.Request.MessageHeader req in
    models.MessageHeader.MessageControlIDSessionID h = time.FormatRFC3339 now
    /\ models.MessageHeader.MessageControlIDMessageNum h
       = strconv.FormatInt10 (time.Unix now)
    /\ strconv.ParseInt10 (models.MessageHeader.MessageControlIDMessageNum h)
       = Some (time.Unix now)
    /\ models.MessageHeader.MessageControlIDInstanceNum h = "0" in
  sets (fst (models.NewRequest clock))
  /\ sets (fst (models.NewRequestWithBody body clock)).
Proof. cbv zeta. repeat split; apply ParseInt10_FormatInt10. Qed.

(** C10: a new request takes one reading of the clock, and all its fields
    that depend on the time come from that reading: [DatetimeOfMessage] and
    the session id are the same string, its RFC 3339 rendering, and the
    message number is its Unix time in seconds. *)
Theorem NewRequest_single_reading (clock : time.Clock) :
  let now := nextReading clock in
  let h := models.Request.MessageHeader (fst (models.NewRequest clock)) in
  models.MessageHeader.DatetimeOfMessage h
  = models.MessageHeader.MessageControlIDSessionID h
  /\ models.MessageHeader.DatetimeOfMessage h = time.FormatRFC3339 now
  /\ models.MessageHeader.MessageControlIDSessionID h = time.FormatRFC3339 now
  /\ models.MessageHeader.MessageControlIDMessageNum h
     = strconv.FormatInt10 (time.Unix now)
  /\ time.ticks (snd (models.NewRequest clock)) = S (time.ticks clock)
  /\ time.reading (snd (models.NewRequest clock)) = time.reading clock.
Proof. cbv zeta. repeat split. Qed.

End Builder.

(** On a clock that advances between two readings, the request carries the
    first reading only, and the next request the second. *)
Example NewRequest_on_advancing_clock :
  let '(req1, clock) := models.NewRequest (utc.clock 1622548799) in
  let '(req2, _) := models.NewRequest clock in
  models.MessageHeader.DatetimeOfMessage (models.Request.MessageHeader req1)
    = "2021-06-01T11:59:59Z"
  /\ models.MessageHeader.MessageControlIDSessionID (models.Request.MessageHeader req1)
    = "2021-06-01T11:59:59Z"
  /\ models.MessageHeader.MessageControlIDMessageNum (models.Request.MessageHeader req1)
    = "1622548799"
  /\ models.MessageHeader.MessageControlIDSessionID (models.Request.MessageHeader req2)
    = "2021-06-01T12:00:00Z".
Proof. repeat split. Qed.

(** ** The operation dispatcher *)

(** The dispatcher on the handlers that count: an unknown name, the two
    names without a handler, a handler that fails and one that succeeds. *)
Example Query_runs :
  let Query := @datasource.Query testbed.externals testbed.operations testbed.ds in
  fst (Query "alice" "frobnicate" None ∅ testbed.start)
  = (None, None, Some (errors.New "unknown query requested (frobnicate)"))
  /\ fst (Query "alice" "survival-query" None ∅ testbed.start)
     = (None, None, Some (errors.New "operation survivalQuery not implemented"))
  /\ fst (Query "alice" "search-ontology" None ∅ testbed.start)
     = (None, None, Some (errors.New "operation searchOntology not implemented"))
  /\ fst (Query "alice" "delete-cohort" None ∅ testbed.start)
     = (None, None,
        Some (errors.New "executing operation delete-cohort: cohort not found"))
  /\ fst (Query "alice" "explore-query" None ∅ testbed.start)
     = (Some [], Some ["count"], None).
Proof. repeat split. Qed.

Section Dispatch.
Context `{Externals} `{!datasource.Operations}.

Implicit Types (ds : datasource.I2b2DataSource) (w : World).
Implicit Types (userID operation : string) (jsonParameters : slice Byte.byte).
Implicit Types (ids : gmap string DataObjectSharedID).

(** The names of a list without repetition differ two by two; a name that
    is none of them differs from each. *)
Ltac names_apart :=
  repeat match goal with
    | Hd : NoDup (_ :: _) |- _ => apply NoDup_cons in Hd; destruct Hd
    | Hn : _ ∉ _ :: _ |- _ => apply not_elem_of_cons in Hn; destruct Hn
    end.

(** Decide the comparisons of the [switch], from the equations and
    disequations at hand. *)
Ltac switch_on operation :=
  repeat match goal with
    | |- context [String.eqb operation ?name] =>
        first
          [ rewrite (String.eqb_refl operation)
          | replace (String.eqb operation name) with false
              by (symmetry; apply String.eqb_neq; congruence) ]
    end.

(** The error that [logError] makes of a cause carries the cause in its
    message, and nowhere else: it wraps no error. *)
Lemma logError_caused ds (errMsg : string) (cause : errors.error) w :
  let err := errors.New (errMsg +:+ ": " +:+ errors.Error cause) in
  datasource.logError ds errMsg (Some cause) w
  = (err, logrus.Error (datasource.logger ds) err w)
  /\ errors.Unwrap err = None.
Proof. split; reflexivity. Qed.

(** C2: for an operation name that is none of the eight names, [Query]
    returns the error of an unknown operation, a nil result and nil output
    objects; the world after is the world before with the two entry lines
    and the error logged, whatever the handlers are: no handler runs. *)
Theorem Query_unknown_operation ds userID operation jsonParameters ids w :
  operation ∉ operationNames ->
  let err := errors.New (unknownOperation operation) in
  datasource.Query ds userID operation jsonParameters ids w
  = ((None, None, Some err),
     logrus.Error (datasource.logger ds) err
       (entered ds userID operation jsonParameters w)).
Proof.
  unfold operationNames. intros Hnot. names_apart.
  unfold datasource.Query. switch_on operation.
  reflexivity.
Qed.

(** C3: when the eight names differ (a [switch] does not compile with a
    repeated constant), [Query] on the name of the survival query or of the
    ontology search returns an error that says the operation is not
    implemented, with a nil result and nil output objects and without
    running a handler. Its message is neither the message of an unknown
    operation nor the message [Query] makes around the error of a handler,
    for any operation name and any error. *)
Theorem Query_not_implemented ds userID jsonParameters ids w :
  NoDup operationNames ->
  let survival := errors.New "operation survivalQuery not implemented" in
  let ontology := errors.New "operation searchOntology not implemented" in
  datasource.Query ds userID datasource.OperationSurvivalQuery jsonParameters ids w
  = ((None, None, Some survival),
     logrus.Error (datasource.logger ds) survival
       (entered ds userID datasource.OperationSurvivalQuery jsonParameters w))
  /\ datasource.Query ds userID datasource.OperationSearchOntology jsonParameters ids w
     = ((None, None, Some ontology),
        logrus.Error (datasource.logger ds) ontology
          (entered ds userID datasource.OperationSearchOntology jsonParameters w))
  /\ (forall operation cause,
        errors.Error survival <> unknownOperation operation
        /\ errors.Error ontology <> unknownOperation operation
        /\ errors.Error survival <> handlerFailure operation cause
        /\ errors.Error ontology <> handlerFailure operation cause).
Proof.
  unfold operationNames. intros Hdistinct. names_apart.
  cbv zeta. split; [| split].
  - unfold datasource.Query.
    switch_on datasource.OperationSurvivalQuery. reflexivity.
  - unfold datasource.Query.
    switch_on datasource.OperationSearchOntology. reflexivity.
  - intros operation cause. repeat split; discriminate.
Qed.

(** C4, as amended: when the names differ and the handler of an operation
    of the dispatcher table returns an error, [Query] returns a nil result
    and nil output objects, whatever the handler returned next to its
    error, and an error that is logged in the world the handler left. That
    error carries the operation name and the message of the error of the
    handler, as text: its message is ["executing operation "], the
    operation name, [": "] and that message. It is a plain message: it
    wraps no error, and the error of the handler itself is not kept. *)
Theorem Query_handler_error ds userID operation jsonParameters ids w
    (handler : datasource.OperationHandler) res objs cause w' :
  NoDup operationNames ->
  (operation, handler) ∈ handlerTable ds ->
  handler userID jsonParameters ids (entered ds userID operation jsonParameters w)
  = ((res, objs, Some cause), w') ->
  let err :=
    errors.New ("executing operation " +:+ operation +:+ ": " +:+ errors.Error cause) in
  datasource.Query ds userID operation jsonParameters ids w
  = ((None, None, Some err), logrus.Error (datasource.logger ds) err w')
  /\ errors.Error err
     = "executing operation " +:+ operation +:+ ": " +:+ errors.Error cause
  /\ errors.Unwrap err = None.
Proof.
  unfold operationNames, handlerTable. intros Hdistinct Hin Hfails.
  names_apart. unfold entered in Hfails.
  cbv zeta. split; [| split; reflexivity].
  repeat (apply elem_of_cons in Hin; destruct Hin as [[= -> ->] | Hin]);
    [ .. | now apply elem_of_nil in Hin ];
    unfold datasource.Query;
    match goal with
    | |- context [String.eqb ?op _] => switch_on op
    end;
    unfold mbind, Action_bind, effect;
    rewrite Hfails; reflexivity.
Qed.

End Dispatch.

(** An unknown name on the handlers that count: the error, and a count of
    handler calls that is still zero. *)
Lemma Query_unknown_operation_witness :
  let out :=
    @datasource.Query testbed.externals testbed.operations
      testbed.ds "alice" "frobnicate" None ∅ testbed.start in
  fst out = (None, None, Some (errors.New "unknown query requested (frobnicate)"))
  /\ testbed.handlerCalls (snd out) = 0%nat.
Proof.
  cbv zeta.
  rewrite (@Query_unknown_operation testbed.externals testbed.operations
             testbed.ds "alice" "frobnicate" None ∅ testbed.start).
  - split; reflexivity.
  - unfold operationNames; cbn.
    repeat (apply not_elem_of_cons; split; [discriminate |]).
    apply not_elem_of_nil.
Defined.

(** The names of the tests differ. *)
Lemma testbed_names_distinct :
  NoDup (@operationNames testbed.externals testbed.operations).
Proof.
  unfold operationNames; cbn.
  repeat (apply NoDup_cons_2;
          [ repeat (apply not_elem_of_cons; split; [discriminate |]);
            apply not_elem_of_nil | ]).
  apply NoDup_nil_2.
Defined.

(** The two names without a handler on the handlers that count. *)
Lemma Query_not_implemented_witness :
  let Query := @datasource.Query testbed.externals testbed.operations testbed.ds in
  fst (Query "alice" "survival-query" None ∅ testbed.start)
  = (None, None, Some (errors.New "operation survivalQuery not implemented"))
  /\ testbed.handlerCalls (snd (Query "alice" "survival-query" None ∅ testbed.start)) = 0%nat
  /\ fst (Query "alice" "search-ontology" None ∅ testbed.start)
     = (None, None, Some (errors.New "operation searchOntology not implemented"))
  /\ testbed.handlerCalls (snd (Query "alice" "search-ontology" None ∅ testbed.start)) = 0%nat.
Proof.
  cbv zeta.
  destruct (@Query_not_implemented testbed.externals testbed.operations
              testbed.ds "alice" None ∅ testbed.start testbed_names_distinct)
    as (Hsurvival & Hontology & _).
  split; [exact (f_equal fst Hsurvival) | split].
  - exact (f_equal (fun out => testbed.handlerCalls (snd out)) Hsurvival).
  - split; [exact (f_equal fst Hontology) |].
    exact (f_equal (fun out => testbed.handlerCalls (snd out)) Hontology).
Defined.

(** Deleting a cohort on the handlers that count: the handler is called
    once and returns a result, an output object and an error; [Query]
    returns an error with the context and the message of that error, which
    wraps nothing, and nothing else. *)
Lemma Query_handler_error_witness :
  fst (@datasource.Query testbed.externals testbed.operations
         testbed.ds "alice" "delete-cohort" None ∅ testbed.start)
  = (None, None,
     Some (errors.New "executing operation delete-cohort: cohort not found"))
  /\ testbed.handlerCalls
       (snd (@datasource.Query testbed.externals testbed.operations
               testbed.ds "alice" "delete-cohort" None ∅ testbed.start)) = 1%nat
  /\ errors.Unwrap
       (errors.New "executing operation delete-cohort: cohort not found") = None.
Proof.
  destruct (@Query_handler_error testbed.externals testbed.operations
              testbed.ds "alice" "delete-cohort" None ∅ testbed.start
              (@datasource.DeleteCohortHandler testbed.externals testbed.operations
                 testbed.ds)
              (Some []) (Some ["partial"]) (errors.New "cohort not found")
              {| testbed.journal :=
                   [ "debug: parameters: ";
                     "info: executing operation delete-cohort for user alice" ];
                 testbed.handlerCalls := 1 |}
              testbed_names_distinct)
    as (Hquery & _ & Hplain).
  - unfold handlerTable. do 5 apply list_elem_of_further. apply list_elem_of_here.
  - reflexivity.
  - split; [exact (f_equal fst Hquery) | split].
    + exact (f_equal (fun out => testbed.handlerCalls (snd out)) Hquery).
    + exact Hplain.
Defined.

(** C4, as the claim states it, fails: the error of the handler is not
    preserved for inspection. Two handler errors that differ, a plain one
    and one that wraps a lost connection and has the same message, give the
    same outcome of [Query]; the error returned wraps nothing, and
    [errors.Is] finds in it neither the error of the handler nor the error
    that the handler wrapped. *)
Lemma Query_handler_error_loses_cause :
  errors.New "cohort not found: connection reset"
  <> errors.wrapError "cohort not found: connection reset"
       (errors.New "connection reset")
  /\ fst (@datasource.Query testbed.externals
            (failingWith (errors.New "cohort not found: connection reset"))
            testbed.ds "alice" "delete-cohort" None ∅ testbed.start)
     = fst (@datasource.Query testbed.externals
              (failingWith (errors.wrapError "cohort not found: connection reset"
                              (errors.New "connection reset")))
              testbed.ds "alice" "delete-cohort" None ∅ testbed.start)
  /\ (exists err,
        fst (@datasource.Query testbed.externals
               (failingWith (errors.wrapError "cohort not found: connection reset"
                               (errors.New "connection reset")))
               testbed.ds "alice" "delete-cohort" None ∅ testbed.start)
        = (None, None, Some err)
        /\ errors.Error err
           = "executing operation delete-cohort: cohort not found: connection reset"
        /\ errors.Unwrap err = None
        /\ errors.Is err (errors.wrapError "cohort not found: connection reset"
                            (errors.New "connection reset")) = false
        /\ errors.Is err (errors.New "connection reset") = false).
Proof.
  split; [discriminate | split; [reflexivity |]].
  eexists. repeat split.
Qed.

(** ** The construction of the data source *)

Example ParseDuration_runs :
  durations.ParseDuration "5s" = (5 * time.Second, None)
  /\ durations.ParseDuration "1h30m" = (90 * time.Minute, None)
  /\ durations.ParseDuration "-250ms" = (-250 * time.Millisecond, None)
  /\ durations.ParseDuration "0" = (0, None)
  /\ durations.ParseDuration "9223372036854775807ns" = (2 ^ 63 - 1, None)
  /\ durations.ParseDuration "-9223372036854775808ns" = (- 2 ^ 63, None).
Proof. repeat split. Qed.

Example ParseDuration_refuses :
  option_map errors.Error (snd (durations.ParseDuration ""))
  = Some ("time: invalid duration " +:+ durations.quote "")
  /\ option_map errors.Error (snd (durations.ParseDuration "soon"))
     = Some ("time: invalid duration " +:+ durations.quote "soon")
  /\ option_map errors.Error (snd (durations.ParseDuration "5"))
     = Some ("time: missing unit in duration " +:+ durations.quote "5")
  /\ option_map errors.Error (snd (durations.ParseDuration "5 s"))
     = Some ("time: unknown unit " +:+ durations.quote " s"
             +:+ " in duration " +:+ durations.quote "5 s")
  /\ option_map errors.Error (snd (durations.ParseDuration "9223372036854775808ns"))
     = Some ("time: invalid duration " +:+ durations.quote "9223372036854775808ns").
Proof. repeat split. Qed.

Section Construction.
Context `{Externals}.

(** C8: when the wait time of the configuration does not parse as a
    duration, [NewI2b2DataSource] returns a nil data source and an error;
    once the database is there, the error is the one of the parsing with its
    context. When it parses (and the database is there), the duration parsed
    is the wait time of the connection information, whose other fields are
    the values of the configuration as they are, empty or not, and the data
    source is returned without an error. *)
Theorem NewI2b2DataSource_wait_time (id : DataSourceID) (owner name : string)
    (logger0 : logrus.FieldLogger World) (config : gmap string string) (w : World) :
  let parsed := ParseDuration (index config "i2b2.api.wait-time") in
  let connected := databaseConfig config (NewPostgresDatabase logger0) w in
  let out := datasource.NewI2b2DataSource id owner name logger0 config w in
  (snd parsed <> None -> fst (fst out) = None /\ snd (fst out) <> None)
  /\ (forall cause db w1,
        snd parsed = Some cause ->
        connected = ((db, None), w1) ->
        let err := errors.New ("parsing i2b2 wait time: " +:+ errors.Error cause) in
        out = ((None, Some err), logrus.Error logger0 err w1))
  /\ (forall db w1,
        snd parsed = None ->
        connected = ((db, None), w1) ->
        out
        = ((Some {|
              datasource.DataSourceModel_ :=
                NewDataSourceModel id owner name datasource.DataSourceType;
              datasource.logger := logger0;
              datasource.db := db;
              datasource.i2b2Client := {|
                datasource.Logger := Some logger0;
                datasource.Ci := connectionInfoOf config (fst parsed);
              |};
              datasource.i2b2OntMaxElements := index config "i2b2.api.ont-max-elements";
            |}, None),
           logrus.Infof logger0
             ("initialized i2b2 data source for " +:+ index config "i2b2.api.url") w1)).
Proof.
  cbv zeta. unfold databaseConfig, datasource.NewI2b2DataSource.
  unfold mbind, Action_bind.
  destruct (NewPostgresDatabase logger0 _ _ _ _ _ _ w) as [[db dberr] w1].
  destruct (ParseDuration (index config "i2b2.api.wait-time")) as [d perr].
  cbn [fst snd].
  split; [| split].
  - intros Hperr. destruct dberr as [dberr |]; [split; [reflexivity | discriminate] |].
    destruct perr as [perr |]; [| contradiction].
    split; [reflexivity | discriminate].
  - intros cause db' w1' -> [= -> -> ->]. reflexivity.
  - intros db' w1' -> [= -> -> ->]. reflexivity.
Qed.

End Construction.

(** A wait time that does not parse, ["soon"], and one that does, ["5s"],
    in a configuration without any credentials. *)
Lemma NewI2b2DataSource_wait_time_witness :
  let New := @datasource.NewI2b2DataSource testbed.externals
               "id" "owner" "name" testbed.logger in
  fst (New (bareConfig "soon") testbed.start)
  = (None, Some (errors.New ("parsing i2b2 wait time: time: invalid duration "
                             +:+ durations.quote "soon")))
  /\ (exists ds,
        fst (New (bareConfig "5s") testbed.start) = (Some ds, None)
        /\ datasource.Ci (datasource.i2b2Client ds)
           = {| models.ConnectionInfo.HiveURL := "";
                models.ConnectionInfo.Domain := "";
                models.ConnectionInfo.Username := "";
                models.ConnectionInfo.Password := "";
                models.ConnectionInfo.Project := "";
                models.ConnectionInfo.WaitTime := 5 * time.Second |}).
Proof.
  cbv zeta. split.
  - rewrite (proj1 (proj2 (@NewI2b2DataSource_wait_time testbed.externals
                              "id" "owner" "name" testbed.logger
                              (bareConfig "soon") testbed.start))
               (errors.New ("time: invalid duration " +:+ durations.quote "soon"))
               (Some "localhost") testbed.start);
      reflexivity.
  - eexists.
    rewrite (proj2 (proj2 (@NewI2b2DataSource_wait_time testbed.externals
                              "id" "owner" "name" testbed.logger
                              (bareConfig "5s") testbed.start))
               (Some "localhost") testbed.start);
      [ split; reflexivity | reflexivity | reflexivity ].
Defined.

(** * Further properties of the code *)

(** ** The response validator reads the status only *)

(** [FormatInt10] is injective: two numbers with the same decimal string
    are the same number. *)
Lemma FormatInt10_inj (i j : Z) :
  strconv.FormatInt10 i = strconv.FormatInt10 j -> i = j.
Proof.
  intros E. apply (f_equal strconv.ParseInt10) in E.
  rewrite !ParseInt10_FormatInt10 in E. now injection E.
Qed.

(** X1: [CheckStatus] looks at the status and at nothing else of the
    response: two responses with the same status type and text get the same
    answer, whatever their polling descriptors, conditions, headers and
    bodies are. A status that is not ["DONE"] is an error even when the
    response carries a polling URL. *)
Theorem CheckStatus_reads_status_only (r1 r2 : models.Response.t) :
  statusOf r1 = statusOf r2 ->
  models.CheckStatus r1 = models.CheckStatus r2.
Proof.
  intros E. unfold models.CheckStatus.
  fold (statusOf r1) (statusOf r2). now rewrite E.
Qed.

(** A pending response, bare and with a polling URL and a condition. *)
Lemma CheckStatus_reads_status_only_witness :
  let bare := responseWith "PENDING" "still running" in
  let polled :=
    withPolling "http://hive.example/poll" "100"
      [ {| models.ResponseHeader.Condition.Text := "queued";
           models.ResponseHeader.Condition.Type_ := "INFO";
           models.ResponseHeader.Condition.CodingSystem := "i2b2" |} ] bare in
  models.CheckStatus polled = models.CheckStatus bare
  /\ models.CheckStatus polled = Some (errors.New "still running").
Proof.
  cbv zeta. split.
  - apply CheckStatus_reads_status_only. reflexivity.
  - reflexivity.
Defined.

(** ** The connection information in a request *)

(** X2: the last connection information wins: [SetConnectionInfo] with
    [ci1] and then with [ci2] leaves the request as [SetConnectionInfo]
    with [ci2] alone does. *)
Theorem SetConnectionInfo_last_wins (req : models.Request.t)
    (ci1 ci2 : models.ConnectionInfo.t) :
  models.SetConnectionInfo (models.SetConnectionInfo req ci1) ci2
  = models.SetConnectionInfo req ci2.
Proof. reflexivity. Qed.

(** X3: what a request keeps of the connection information is the domain,
    the username, the password, the project and the wait time in whole
    milliseconds: two connection informations give the same request exactly
    when they agree on these. The hive URL and the part of the wait time
    below a millisecond never reach the request. *)
Theorem SetConnectionInfo_eq_iff (req : models.Request.t)
    (ci1 ci2 : models.ConnectionInfo.t) :
  models.SetConnectionInfo req ci1 = models.SetConnectionInfo req ci2
  <-> models.ConnectionInfo.Domain ci1 = models.ConnectionInfo.Domain ci2
      /\ models.ConnectionInfo.Username ci1 = models.ConnectionInfo.Username ci2
      /\ models.ConnectionInfo.Password ci1 = models.ConnectionInfo.Password ci2
      /\ models.ConnectionInfo.Project ci1 = models.ConnectionInfo.Project ci2
      /\ waitMs ci1 = waitMs ci2.
Proof.
  split.
  - intros E.
    pose proof (f_equal (fun r => models.MessageHeader.SecurityDomain
                                    (models.Request.MessageHeader r)) E) as Hd.
    pose proof (f_equal (fun r => models.MessageHeader.SecurityUsername
                                    (models.Request.MessageHeader r)) E) as Hu.
    pose proof (f_equal (fun r => models.MessageHeader.SecurityPassword
                                    (models.Request.MessageHeader r)) E) as Hp.
    pose proof (f_equal (fun r => models.MessageHeader.ProjectID
                                    (models.Request.MessageHeader r)) E) as Hj.
    pose proof (f_equal (fun r => models.RequestHeader.ResultWaittimeMs
                                    (models.Request.RequestHeader r)) E) as Hw.
    cbn in Hd, Hu, Hp, Hj, Hw.
    repeat split; try assumption.
    now apply FormatInt10_inj.
  - intros (Hd & Hu & Hp & Hj & Hw).
    unfold waitMs in Hw.
    unfold models.SetConnectionInfo, time.Milliseconds. cbn.
    now rewrite Hd, Hu, Hp, Hj, Hw.
Qed.

(** The connection information of the tests, the same behind another URL
    with half a millisecond more of wait time, and the same with a second
    more. *)
Lemma SetConnectionInfo_eq_iff_witness :
  let req := fst (models.NewRequest (utc.clock 0)) in
  models.SetConnectionInfo req testbed.ci
  = models.SetConnectionInfo req
      (withEndpoint "http://other.example/pm" (5 * time.Second + 500000) testbed.ci)
  /\ models.SetConnectionInfo req testbed.ci
     <> models.SetConnectionInfo req
          (withEndpoint "http://hive.example/pm" (6 * time.Second) testbed.ci).
Proof.
  cbv zeta. split.
  - apply (proj2 (SetConnectionInfo_eq_iff
                    (fst (models.NewRequest (utc.clock 0))) testbed.ci
                    (withEndpoint "http://other.example/pm"
                       (5 * time.Second + 500000) testbed.ci))).
    repeat split.
  - intros E.
    apply (proj1 (SetConnectionInfo_eq_iff
                    (fst (models.NewRequest (utc.clock 0))) testbed.ci
                    (withEndpoint "http://hive.example/pm"
                       (6 * time.Second) testbed.ci))) in E.
    destruct E as (_ & _ & _ & _ & E). discriminate E.
Defined.

(** The quotient by a million toward zero, with its remainder. *)
Lemma quot_million (d : Z) :
  exists r, d = 1000000 * (d ÷ 1000000) + r
            /\ (0 <= d -> 0 <= r < 1000000 /\ 0 <= d ÷ 1000000)
            /\ (d < 0 -> -1000000 < r <= 0 /\ d ÷ 1000000 <= 0).
Proof.
  exists (Z.rem d 1000000). split; [apply Z.quot_rem' |]. split; intros Hd.
  - split; [apply Z.rem_bound_pos; lia | apply Z.quot_pos; lia].
  - pose proof (Z.rem_bound_pos_neg d 1000000 ltac:(lia) ltac:(lia)).
    pose proof (Z.quot_rem' d 1000000). split; lia.
Qed.

(** X4: the wait time written in the request is a number, never the
    ["NOT_SET"] of a new request nor an empty string, and it is the wait
    time cut to whole milliseconds toward zero: times a million, it has the
    sign of the wait time and is less than a millisecond short of it. A wait
    time below a millisecond, of either sign, is written ["0"]. *)
Theorem SetConnectionInfo_wait_time_truncates (req : models.Request.t)
    (ci : models.ConnectionInfo.t) :
  let field :=
    models.RequestHeader.ResultWaittimeMs
      (models.Request.RequestHeader (models.SetConnectionInfo req ci)) in
  let d := models.ConnectionInfo.WaitTime ci in
  strconv.ParseInt10 field = Some (waitMs ci)
  /\ field <> "NOT_SET" /\ field <> ""
  /\ Z.abs (waitMs ci * 1000000) <= Z.abs d < Z.abs (waitMs ci * 1000000) + 1000000
  /\ 0 <= waitMs ci * d
  /\ (Z.abs d < 1000000 -> field = "0").
Proof.
  cbv zeta.
  assert (Hfield : models.RequestHeader.ResultWaittimeMs
                     (models.Request.RequestHeader (models.SetConnectionInfo req ci))
                   = strconv.FormatInt10 (waitMs ci)) by reflexivity.
  rewrite Hfield. unfold waitMs.
  set (d := models.ConnectionInfo.WaitTime ci).
  pose proof (ParseInt10_FormatInt10 (d ÷ 1000000)) as Hread.
  split; [exact Hread |].
  split; [intros E; rewrite E in Hread; discriminate |].
  split; [intros E; rewrite E in Hread; discriminate |].
  destruct (quot_million d) as (r & Hd & Hpos & Hneg).
  split; [lia |].
  split; [destruct (Z_le_gt_dec 0 d); nia |].
  intros Hsmall.
  replace (d ÷ 1000000) with 0 by (symmetry; apply Z.quot_small_iff; lia).
  reflexivity.
Qed.

(** Half a millisecond, of either sign, is written as zero. *)
Lemma SetConnectionInfo_wait_time_truncates_witness :
  let req := fst (models.NewRequest (utc.clock 0)) in
  models.RequestHeader.ResultWaittimeMs
    (models.Request.RequestHeader
       (models.SetConnectionInfo req (withEndpoint "" 500000 testbed.ci))) = "0"
  /\ models.RequestHeader.ResultWaittimeMs
       (models.Request.RequestHeader
          (models.SetConnectionInfo req (withEndpoint "" (-500000) testbed.ci))) = "0".
Proof.
  cbv zeta. split.
  - apply (SetConnectionInfo_wait_time_truncates
             (fst (models.NewRequest (utc.clock 0)))
             (withEndpoint "" 500000 testbed.ci)).
    cbn. lia.
  - apply (SetConnectionInfo_wait_time_truncates
             (fst (models.NewRequest (utc.clock 0)))
             (withEndpoint "" (-500000) testbed.ci)).
    cbn. lia.
Defined.

(** ** New requests *)

Section Requests.
Context `{time.TimeOps}.

(** X5: a new request depends on the clock through two values only, the
    RFC 3339 string and the Unix seconds of the reading it takes: two new
    requests are equal exactly when their readings agree on both. The
    request made next on the same clock takes the next reading. *)
Theorem NewRequest_eq_iff (c1 c2 : time.Clock) :
  (fst (models.NewRequest c1) = fst (models.NewRequest c2)
   <-> time.FormatRFC3339 (nextReading c1) = time.FormatRFC3339 (nextReading c2)
       /\ time.Unix (nextReading c1) = time.Unix (nextReading c2))
  /\ nextReading (snd (models.NewRequest c1)) = time.reading c1 (S (time.ticks c1)).
Proof.
  split; [| reflexivity]. split.
  - intros E.
    pose proof (f_equal (fun r => models.MessageHeader.MessageControlIDSessionID
                                    (models.Request.MessageHeader r)) E) as Hs.
    pose proof (f_equal (fun r => models.MessageHeader.MessageControlIDMessageNum
                                    (models.Request.MessageHeader r)) E) as Hn.
    cbn in Hs, Hn. split; [exact Hs | now apply FormatInt10_inj].
  - intros [Hs Hn]. unfold nextReading in Hs, Hn.
    unfold models.NewRequest, time.Now. cbn. now rewrite Hs, Hn.
Qed.

(** X6: [NewRequestWithBody] is [NewRequest] with the body attached: it
    takes the same single reading, a nil body gives the request of
    [NewRequest], and attaching the body commutes with setting the
    connection information. *)
Theorem NewRequestWithBody_attaches (clock : time.Clock)
    (body : models.MessageBody) (ci : models.ConnectionInfo.t) :
  models.NewRequestWithBody None clock = models.NewRequest clock
  /\ models.Request.MessageBody (fst (models.NewRequestWithBody body clock)) = body
  /\ models.Request.MessageHeader (fst (models.NewRequestWithBody body clock))
     = models.Request.MessageHeader (fst (models.NewRequest clock))
  /\ models.Request.RequestHeader (fst (models.NewRequestWithBody body clock))
     = models.Request.RequestHeader (fst (models.NewRequest clock))
  /\ snd (models.NewRequestWithBody body clock) = snd (models.NewRequest clock)
  /\ models.SetConnectionInfo (fst (models.NewRequestWithBody body clock)) ci
     = models.Request.set_MessageBody body
         (models.SetConnectionInfo (fst (models.NewRequest clock)) ci).
Proof. repeat split. Qed.

End Requests.

(** Two clocks that start at the same second and part afterwards, and a
    clock that starts a second later. *)
Lemma NewRequest_eq_iff_witness :
  let steady := utc.clock 1622548800 in
  let hasty := @time.Build_Clock utc.ops (fun n => 1622548800 + 60 * Z.of_nat n) 0%nat in
  fst (models.NewRequest steady) = fst (models.NewRequest hasty)
  /\ fst (models.NewRequest steady) <> fst (models.NewRequest (utc.clock 1622548801))
  /\ fst (models.NewRequest (snd (models.NewRequest steady)))
     = fst (models.NewRequest (utc.clock 1622548801)).
Proof.
  cbv zeta. split; [| split].
  - apply (proj1 (@NewRequest_eq_iff utc.ops (utc.clock 1622548800)
                    (@time.Build_Clock utc.ops
                       (fun n => 1622548800 + 60 * Z.of_nat n) 0%nat))).
    split; reflexivity.
  - intros E.
    apply (proj1 (@NewRequest_eq_iff utc.ops (utc.clock 1622548800)
                    (utc.clock 1622548801))) in E.
    destruct E as [_ E]. discriminate E.
  - apply (proj1 (@NewRequest_eq_iff utc.ops
                    (snd (models.NewRequest (utc.clock 1622548800)))
                    (utc.clock 1622548801))).
    split; reflexivity.
Defined.

(** ** The outcomes of the dispatcher *)

Section Outcomes.
Context `{Externals} `{!datasource.Operations}.

Implicit Types (ds : datasource.I2b2DataSource) (w : World).
Implicit Types (userID operation : string) (jsonParameters : slice Byte.byte).
Implicit Types (ids : gmap string DataObjectSharedID).

(** Split a list without repetition into the disequations of its
    elements. *)
Ltac distinct_names :=
  repeat match goal with
    | Hd : NoDup (_ :: _) |- _ => apply NoDup_cons in Hd; destruct Hd
    | Hn : _ ∉ _ :: _ |- _ => apply not_elem_of_cons in Hn; destruct Hn
    end.

(** Settle the comparisons of the [switch] on [operation]. *)
Ltac settle_switch operation :=
  repeat match goal with
    | |- context [String.eqb operation ?name] =>
        first
          [ rewrite (String.eqb_refl operation)
          | replace (String.eqb operation name) with false
              by (symmetry; apply String.eqb_neq; congruence) ]
    end.

(** X7: when the names differ and the handler of an operation of the
    dispatcher table returns without an error, [Query] returns the result
    and the output objects of the handler as they are, nil or not, and no
    error. The handler has run once, on the user, the parameters and the
    shared identifiers given to [Query], after the two entry lines were
    logged; two more lines are logged after it. *)
Theorem Query_success ds userID operation jsonParameters ids w
    (handler : datasource.OperationHandler) res objs w' :
  NoDup operationNames ->
  (operation, handler) ∈ handlerTable ds ->
  handler userID jsonParameters ids (entered ds userID operation jsonParameters w)
  = ((res, objs, None), w') ->
  datasource.Query ds userID operation jsonParameters ids w
  = ((res, objs, None), left ds userID operation res w').
Proof.
  unfold operationNames, handlerTable. intros Hdistinct Hin Hruns.
  distinct_names. unfold entered in Hruns.
  repeat (apply elem_of_cons in Hin; destruct Hin as [[= -> ->] | Hin]);
    [ .. | now apply elem_of_nil in Hin ];
    unfold datasource.Query;
    match goal with
    | |- context [String.eqb ?op _] => settle_switch op
    end;
    unfold mbind, Action_bind, effect;
    rewrite Hruns; reflexivity.
Qed.

(** A case of the [switch] that sets a handler: follow the handler into
    its two answers, with and without an error. *)
Ltac handler_case :=
  subst; unfold mbind, Action_bind, effect, entered, left; cbn beta iota zeta;
  match goal with
  | |- context [?handler ?d ?u ?p ?i ?w0] =>
      lazymatch type of d with datasource.I2b2DataSource => idtac end;
      lazymatch type of w0 with World => idtac end;
      let Hanswer := fresh "Hanswer" in
      destruct (handler d u p i w0) as [[[? ?] [? |]] ?] eqn:Hanswer
  end;
  cbn;
  [ repeat split; right; right; right; eexists; reflexivity
  | do 2 eexists; split;
    [ unfold handlerTable;
      repeat first [apply list_elem_of_here | apply list_elem_of_further]
    | split; [eassumption | reflexivity] ] ].

(** X8: whatever the operation name and the handlers are, [Query] ends in
    one of two ways. Without an error, the result and the output objects
    are those that a handler of the dispatcher table, under the name asked
    for, returned without an error. With an error, the result and the output
    objects are nil, and the error is a plain message: the one of an unknown
    operation, for a name that is none of the eight, one of the two of an
    operation not implemented, or the one around the error of a handler. *)
Theorem Query_outcome ds userID operation jsonParameters ids w :
  match datasource.Query ds userID operation jsonParameters ids w with
  | ((res, objs, None), w2) =>
      exists handler w1,
        (operation, handler) ∈ handlerTable ds
        /\ handler userID jsonParameters ids
             (entered ds userID operation jsonParameters w)
           = ((res, objs, None), w1)
        /\ w2 = left ds userID operation res w1
  | ((res, objs, Some err), _) =>
      res = None /\ objs = None /\ errors.Unwrap err = None
      /\ (errors.Error err = unknownOperation operation /\ operation ∉ operationNames
          \/ errors.Error err = "operation survivalQuery not implemented"
          \/ errors.Error err = "operation searchOntology not implemented"
          \/ exists cause, errors.Error err = handlerFailure operation cause)
  end.
Proof.
  unfold datasource.Query.
  destruct (String.eqb_spec operation datasource.OperationSearchConcept) as [E1 | N1];
    [handler_case |].
  destruct (String.eqb_spec operation datasource.OperationSearchModifier) as [E2 | N2];
    [handler_case |].
  destruct (String.eqb_spec operation datasource.OperationExploreQuery) as [E3 | N3];
    [handler_case |].
  destruct (String.eqb_spec operation datasource.OperationGetCohorts) as [E4 | N4];
    [handler_case |].
  destruct (String.eqb_spec operation datasource.OperationAddCohort) as [E5 | N5];
    [handler_case |].
  destruct (String.eqb_spec operation datasource.OperationDeleteCohort) as [E6 | N6];
    [handler_case |].
  destruct (String.eqb_spec operation datasource.OperationSurvivalQuery) as [E7 | N7];
    [ cbn; repeat split; right; left; reflexivity |].
  destruct (String.eqb_spec operation datasource.OperationSearchOntology) as [E8 | N8];
    [ cbn; repeat split; right; right; left; reflexivity |].
  cbn. repeat split. left. split; [reflexivity |].
  unfold operationNames.
  repeat (apply not_elem_of_cons; split; [assumption |]).
  apply not_elem_of_nil.
Qed.

End Outcomes.

(** Exploring on the handlers that count: the handler is called once, and
    its result and output object come back. *)
Lemma Query_success_witness :
  let out :=
    @datasource.Query testbed.externals testbed.operations
      testbed.ds "alice" "explore-query" None ∅ testbed.start in
  fst out = (Some [], Some ["count"], None)
  /\ testbed.handlerCalls (snd out) = 1%nat
  /\ testbed.journal (snd out)
     = [ "debug: results: ";
         "info: successfully executed operation explore-query for user alice";
         "debug: parameters: ";
         "info: executing operation explore-query for user alice" ].
Proof.
  cbv zeta.
  rewrite (@Query_success testbed.externals testbed.operations
             testbed.ds "alice" "explore-query" None ∅ testbed.start
             (@datasource.ExploreQueryHandler testbed.externals testbed.operations testbed.ds)
             (Some []) (Some ["count"])
             {| testbed.journal :=
                  [ "debug: parameters: ";
                    "info: executing operation explore-query for user alice" ];
                testbed.handlerCalls := 1 |}).
  - repeat split.
  - exact testbed_names_distinct.
  - unfold handlerTable. do 2 apply list_elem_of_further. apply list_elem_of_here.
  - reflexivity.
Defined.

(** ** The constructor and its configuration *)

Section Constructor.
Context `{Externals}.

(** The constructor reads its configuration through [index] at the keys of
    [configKeys], and nowhere else. *)
Lemma NewI2b2DataSource_reads_index (id : DataSourceID) (owner name : string)
    (logger0 : logrus.FieldLogger World) (c1 c2 : gmap string string) (w : World) :
  (forall k, k ∈ configKeys -> index c1 k = index c2 k) ->
  datasource.NewI2b2DataSource id owner name logger0 c1 w
  = datasource.NewI2b2DataSource id owner name logger0 c2 w.
Proof.
  intros Hsame.
  assert (Hkey : forall k, k ∈ configKeys -> index c1 k = index c2 k) by exact Hsame.
  unfold configKeys in Hkey.
  unfold datasource.NewI2b2DataSource.
  rewrite !(fun k => Hkey k)
    by repeat first [apply list_elem_of_here | apply list_elem_of_further].
  reflexivity.
Qed.

(** X9: when the database cannot be initialised, [NewI2b2DataSource]
    returns a nil data source and the error of the database with its
    context, logged once, whatever the rest of the configuration is: the
    wait time is not looked at, so that a wait time that does not parse is
    not what is reported. *)
Theorem NewI2b2DataSource_database_failure (id : DataSourceID) (owner name : string)
    (logger0 : logrus.FieldLogger World) (config : gmap string string) (w : World)
    (db : option PostgresDatabase) (cause : errors.error) (w1 : World) :
  databaseConfig config (NewPostgresDatabase logger0) w = ((db, Some cause), w1) ->
  let err := errors.New (databaseFailure cause) in
  datasource.NewI2b2DataSource id owner name logger0 config w
  = ((None, Some err), logrus.Error logger0 err w1).
Proof.
  unfold databaseConfig. intros Hdb.
  unfold datasource.NewI2b2DataSource, mbind, Action_bind.
  rewrite Hdb. reflexivity.
Qed.

(** X10: [NewI2b2DataSource] returns either a data source or an error,
    never both and never neither; it returns a data source exactly when the
    database is initialised without an error and the wait time parses. *)
Theorem NewI2b2DataSource_one_of (id : DataSourceID) (owner name : string)
    (logger0 : logrus.FieldLogger World) (config : gmap string string) (w : World) :
  let out := fst (datasource.NewI2b2DataSource id owner name logger0 config w) in
  let connected := fst (databaseConfig config (NewPostgresDatabase logger0) w) in
  let parsed := ParseDuration (index config "i2b2.api.wait-time") in
  (fst out = None <-> snd out <> None)
  /\ (fst out <> None <-> snd connected = None /\ snd parsed = None).
Proof.
  cbv zeta.
  unfold databaseConfig, datasource.NewI2b2DataSource, datasource.logError.
  unfold mbind, Action_bind, mret, Action_ret, effect.
  destruct (NewPostgresDatabase logger0 _ _ _ _ _ _ w) as [[db [dberr |]] w1];
    [| destruct (ParseDuration (index config "i2b2.api.wait-time")) as [d [perr |]] ];
    cbn; intuition (try discriminate; try congruence).
Qed.

(** X11: the configuration counts through its thirteen keys only: two
    configurations that agree on them, whatever else they hold, give the
    same data source or the same error, and the same world. *)
Theorem NewI2b2DataSource_config_frame (id : DataSourceID) (owner name : string)
    (logger0 : logrus.FieldLogger World) (c1 c2 : gmap string string) (w : World) :
  (forall k, k ∈ configKeys -> c1 !! k = c2 !! k) ->
  datasource.NewI2b2DataSource id owner name logger0 c1 w
  = datasource.NewI2b2DataSource id owner name logger0 c2 w.
Proof.
  intros Hsame. apply NewI2b2DataSource_reads_index.
  intros k Hk. unfold index. now rewrite (Hsame k Hk).
Qed.

(** X12: a key that the configuration does not hold is read as the empty
    string: with the key bound to the empty string, the constructor does
    the same. *)
Theorem NewI2b2DataSource_missing_key (id : DataSourceID) (owner name : string)
    (logger0 : logrus.FieldLogger World) (config : gmap string string) (w : World)
    (key : string) :
  config !! key = None ->
  datasource.NewI2b2DataSource id owner name logger0 (<[key := ""]> config) w
  = datasource.NewI2b2DataSource id owner name logger0 config w.
Proof.
  intros Hmissing. apply NewI2b2DataSource_reads_index.
  intros k _. unfold index.
  destruct (decide (key = k)) as [<- | Hother].
  - now rewrite lookup_insert_eq, Hmissing.
  - now rewrite lookup_insert_ne.
Qed.

End Constructor.

(** No database host, with a wait time that parses and with one that does
    not: the error is the one of the database. *)
Lemma NewI2b2DataSource_database_failure_witness :
  let New := @datasource.NewI2b2DataSource testbed.externals
               "id" "owner" "name" testbed.logger in
  let failure :=
    (None, Some (errors.New "initializing database connection: no database host")) in
  fst (New {[ "i2b2.api.wait-time" := "5s" ]} testbed.start) = failure
  /\ fst (New {[ "i2b2.api.wait-time" := "soon" ]} testbed.start) = failure.
Proof.
  cbv zeta. split.
  - rewrite (@NewI2b2DataSource_database_failure testbed.externals
               "id" "owner" "name" testbed.logger
               {[ "i2b2.api.wait-time" := "5s" ]} testbed.start
               None (errors.New "no database host") testbed.start);
      reflexivity.
  - rewrite (@NewI2b2DataSource_database_failure testbed.externals
               "id" "owner" "name" testbed.logger
               {[ "i2b2.api.wait-time" := "soon" ]} testbed.start
               None (errors.New "no database host") testbed.start);
      reflexivity.
Defined.

(** A configuration and the same with a key that the constructor does not
    know. *)
Lemma NewI2b2DataSource_config_frame_witness :
  let New := @datasource.NewI2b2DataSource testbed.externals
               "id" "owner" "name" testbed.logger in
  New (<[ "colour" := "blue" ]> (bareConfig "5s")) testbed.start
  = New (bareConfig "5s") testbed.start.
Proof.
  cbv zeta.
  apply (@NewI2b2DataSource_config_frame testbed.externals).
  intros k Hk. apply lookup_insert_ne.
  intros <-. unfold configKeys in Hk.
  repeat (apply elem_of_cons in Hk; destruct Hk as [Hk | Hk]; [discriminate Hk |]).
  now apply elem_of_nil in Hk.
Defined.

(** A configuration without a wait time, and the same with an empty wait
    time: neither gives a data source. *)
Lemma NewI2b2DataSource_missing_key_witness :
  let New := @datasource.NewI2b2DataSource testbed.externals
               "id" "owner" "name" testbed.logger in
  let hostOnly : gmap string string := {[ "db.host" := "localhost" ]} in
  New (<[ "i2b2.api.wait-time" := "" ]> hostOnly) testbed.start
  = New hostOnly testbed.start
  /\ fst (fst (New hostOnly testbed.start)) = None.
Proof.
  cbv zeta. split.
  - apply (@NewI2b2DataSource_missing_key testbed.externals).
    reflexivity.
  - reflexivity.
Defined.

Section Constructed.
Context `{Externals}.

(** X13: a data source that [NewI2b2DataSource] returns logs through the
    logger it was given, which is also the logger of its i2b2 client; it
    holds the database handle that [NewPostgresDatabase] returned, the wait
    time that was parsed, and the limit of ontology elements of the
    configuration, empty when the configuration has none. *)
Theorem NewI2b2DataSource_returns (id : DataSourceID) (owner name : string)
    (logger0 : logrus.FieldLogger World) (config : gmap string string) (w : World)
    (ds : datasource.I2b2DataSource) :
  fst (fst (datasource.NewI2b2DataSource id owner name logger0 config w)) = Some ds ->
  datasource.logger ds = logger0
  /\ datasource.Logger (datasource.i2b2Client ds) = Some logger0
  /\ datasource.db ds
     = fst (fst (databaseConfig config (NewPostgresDatabase logger0) w))
  /\ models.ConnectionInfo.WaitTime (datasource.Ci (datasource.i2b2Client ds))
     = fst (ParseDuration (index config "i2b2.api.wait-time"))
  /\ datasource.i2b2OntMaxElements ds = index config "i2b2.api.ont-max-elements"
  /\ (config !! "i2b2.api.ont-max-elements" = None
      -> datasource.i2b2OntMaxElements ds = "").
Proof.
  unfold databaseConfig, datasource.NewI2b2DataSource, datasource.logError.
  unfold mbind, Action_bind, mret, Action_ret, effect.
  destruct (NewPostgresDatabase logger0 _ _ _ _ _ _ w) as [[db [dberr |]] w1];
    [| destruct (ParseDuration (index config "i2b2.api.wait-time")) as [d [perr |]] ];
    cbn; try discriminate.
  intros [= <-]. cbn. repeat split.
  intros Hmissing. unfold index. now rewrite Hmissing.
Qed.

End Constructed.

(** The data source of a configuration with a host and a wait time only. *)
Lemma NewI2b2DataSource_returns_witness :
  exists ds,
    fst (fst (@datasource.NewI2b2DataSource testbed.externals
                "id" "owner" "name" testbed.logger (bareConfig "5s") testbed.start))
    = Some ds
    /\ datasource.logger ds = testbed.logger
    /\ datasource.db ds = Some "localhost"
    /\ datasource.i2b2OntMaxElements ds = "".
Proof.
  eexists. split; [reflexivity |].
  split; [| split].
  - eapply (@NewI2b2DataSource_returns testbed.externals
              "id" "owner" "name" testbed.logger (bareConfig "5s") testbed.start).
    reflexivity.
  - eapply (@NewI2b2DataSource_returns testbed.externals
              "id" "owner" "name" testbed.logger (bareConfig "5s") testbed.start).
    reflexivity.
  - eapply (@NewI2b2DataSource_returns testbed.externals
              "id" "owner" "name" testbed.logger (bareConfig "5s") testbed.start);
      reflexivity.
Defined.
